(** * DreamWeaver: session synchronisation, stores, auth form and webhook

    A shallow embedding of
    - [src/services/authService.ts] (session listener, sign-up, log-in,
      dream store wrappers),
    - the in-memory backend [mockAuth] / [mockFirestore] / [mockDb] that
      [auth] and [db] are bound to when no hosted configuration is present,
    - the form logic of [src/components/AuthView.tsx],
    - the two cloud functions of [src/functions/index.js].

    JavaScript objects used as documents are finite maps from field names to
    values; the promise-based code is written in a state-and-error monad over
    the whole client world, and the points where an [await] really suspends a
    listener are explicit scheduler actions. *)

From Stdlib Require Import ZArith Sorted.
From stdpp Require Import base option list strings gmap pretty.

Local Open Scope string_scope.
Local Open Scope Z_scope.
Local Open Scope list_scope.

(** ** JavaScript values and documents *)

Inductive Value :=
  | VStr (s : string)
  | VNum (n : Z)
  | VList (l : list string).

#[global] Instance Value_eq_dec : EqDecision Value.
Proof. solve_decision. Defined.

(** A document (profile, dream, patch) is an object: field name to value. *)
Abbreviation Doc := (gmap string Value).

(** [!!v] for a field read: [undefined], the empty string and [0] are falsy. *)
Definition truthy (v : option Value) : bool :=
  match v with
  | None => false
  | Some (VStr s) => negb (String.eqb s "")
  | Some (VNum n) => negb (n =? 0)
  | Some (VList _) => true
  end.

(** [!s] on a string. *)
Definition str_falsy (s : string) : bool := String.eqb s "".

(** [d.field === s] for a string [s]. *)
Definition field_is (field : string) (s : string) (d : Doc) : bool :=
  bool_decide (d !! field = Some (VStr s)).

(** ** The in-memory backend's data: [mockDb] *)

Record Account := {
  acc_password : string;
  acc_email : string;
  acc_uid : string;
}.

(** A JavaScript [Map] whose iteration order is read ([users] is searched
    with [find]): insertion-ordered association list, [set] replaces in
    place or appends. *)
Fixpoint jsmap_set {V} (k : string) (v : V) (m : list (string * V)) :
    list (string * V) :=
  match m with
  | [] => [(k, v)]
  | (k', v') :: m' =>
      if decide (k' = k) then (k, v) :: m' else (k', v') :: jsmap_set k v m'
  end.

Record MockDb := {
  users : list (string * Account);
  userProfiles : gmap string Doc;
  dreams : gmap string (list Doc);
}.

Definition set_users (f : list (string * Account) -> list (string * Account))
    (d : MockDb) : MockDb :=
  {| users := f (users d); userProfiles := userProfiles d; dreams := dreams d |}.
Definition set_userProfiles (f : gmap string Doc -> gmap string Doc)
    (d : MockDb) : MockDb :=
  {| users := users d; userProfiles := f (userProfiles d); dreams := dreams d |}.
Definition set_dreams (f : gmap string (list Doc) -> gmap string (list Doc))
    (d : MockDb) : MockDb :=
  {| users := users d; userProfiles := userProfiles d; dreams := f (dreams d) |}.

(** ** The client world *)

(** [mockAuth._currentUser]: [{ uid, email }]. *)
Record FirebaseUser := {
  uid : string;
  fu_email : string;
}.

(** What the session listener hands to the application: [User | null]. *)
Abbreviation SessionEvent := (option Doc).

(** A rejected promise or thrown value: [err.code], [err.message]. *)
Record Err := {
  code : option string;
  message : option string;
}.

(** Calls made on the [auth] and [db] handles, oldest first. *)
Inductive Call :=
  | AuthCreateUser (email password : string)
  | AuthSignIn (email password : string)
  | AuthSignOut
  | ProfileGet (id : string)
  | ProfileSet (id : string) (data : Doc)
  | DreamsGet (id : string)
  | DreamSet (id dreamId : string) (data : Doc)
  | DreamUpdate (id dreamId : string) (data : Doc)
  | BatchSet (id dreamId : string) (data : Doc)
  | BatchCommit.

Definition is_write (c : Call) : bool :=
  match c with
  | ProfileSet _ _ | DreamSet _ _ _ | DreamUpdate _ _ _
  | BatchSet _ _ _ | BatchCommit => true
  | _ => false
  end.

Record World := {
  db : MockDb;
  currentUser : option FirebaseUser;
  (** [mockAuth._listeners]: the session handlers, named by subscriber. *)
  listeners : list nat;
  (** [setTimeout(..., 100)] callbacks that have not fired yet. *)
  timers : list nat;
  (** Session handlers suspended at [await ... .get()], each with the
      snapshot its [get] returned. *)
  pending : list (nat * option Doc);
  (** Invocations of the subscribers' callbacks, oldest first. *)
  emitted : list (nat * SessionEvent);
  calls : list Call;
}.

Definition set_db (f : MockDb -> MockDb) (w : World) : World :=
  {| db := f (db w); currentUser := currentUser w; listeners := listeners w;
     timers := timers w; pending := pending w; emitted := emitted w;
     calls := calls w |}.
Definition set_currentUser (u : option FirebaseUser) (w : World) : World :=
  {| db := db w; currentUser := u; listeners := listeners w;
     timers := timers w; pending := pending w; emitted := emitted w;
     calls := calls w |}.
Definition set_listeners (f : list nat -> list nat) (w : World) : World :=
  {| db := db w; currentUser := currentUser w; listeners := f (listeners w);
     timers := timers w; pending := pending w; emitted := emitted w;
     calls := calls w |}.
Definition set_timers (f : list nat -> list nat) (w : World) : World :=
  {| db := db w; currentUser := currentUser w; listeners := listeners w;
     timers := f (timers w); pending := pending w; emitted := emitted w;
     calls := calls w |}.
Definition set_pending
    (f : list (nat * option Doc) -> list (nat * option Doc)) (w : World) : World :=
  {| db := db w; currentUser := currentUser w; listeners := listeners w;
     timers := timers w; pending := f (pending w); emitted := emitted w;
     calls := calls w |}.
Definition emit (sid : nat) (ev : SessionEvent) (w : World) : World :=
  {| db := db w; currentUser := currentUser w; listeners := listeners w;
     timers := timers w; pending := pending w;
     emitted := emitted w ++ [(sid, ev)]; calls := calls w |}.
Definition log (c : Call) (w : World) : World :=
  {| db := db w; currentUser := currentUser w; listeners := listeners w;
     timers := timers w; pending := pending w; emitted := emitted w;
     calls := calls w ++ [c] |}.

(** ** Promise-returning code: state and rejection *)

Definition M (A : Type) : Type := World -> (Err + A) * World.

Definition ret {A} (a : A) : M A := fun w => (inr a, w).
Definition reject {A} (e : Err) : M A := fun w => (inl e, w).
Definition bind {A B} (m : M A) (k : A -> M B) : M B :=
  fun w =>
    match m w with
    | (inl e, w') => (inl e, w')
    | (inr a, w') => k a w'
    end.
Definition gets {A} (f : World -> A) : M A := fun w => (inr (f w), w).
Definition modify (f : World -> World) : M unit := fun w => (inr (), f w).

Declare Scope m_scope.
Delimit Scope m_scope with M.
Notation "x <- m ;; k" := (bind m (fun x => k))
  (at level 100, m at next level, k at level 200, right associativity) : m_scope.
Notation "m ;; k" := (bind m (fun _ => k))
  (at level 100, k at level 200, right associativity) : m_scope.
Local Open Scope m_scope.

(** ** The session handler of [authService.onAuthStateChanged]

    [async (firebaseUser) => { if (firebaseUser) { const userDoc = await
    db.collection('users').doc(firebaseUser.uid).get(); ... } else
    callback(null) }].  The backend's [get] reads [mockDb.userProfiles] when
    it is called; the handler continues after the [await] in a later job of
    the event loop. *)

(** Up to the [await]: with no identity, [callback(null)] at once; with one,
    the [get] is issued and the handler is suspended with its snapshot. *)
Definition handler_begin (sid : nat) (firebaseUser : option FirebaseUser)
    (w : World) : World :=
  match firebaseUser with
  | Some u =>
      let userDoc := userProfiles (db w) !! uid u in
      set_pending (fun p => p ++ [(sid, userDoc)]) (log (ProfileGet (uid u)) w)
  | None => emit sid None w
  end.

(** After the [await]: [userDoc.exists ? callback(userDoc.data()) :
    callback(null)]. *)
Definition handler_resume (sid : nat) (userDoc : option Doc) (w : World) : World :=
  match userDoc with
  | Some data => emit sid (Some data) w
  | None => emit sid None w
  end.

(** ** [mockAuth] *)

(** [_notifyListeners]: every registered handler is called, in registration
    order, with the current user. *)
Definition notifyListeners (w : World) : World :=
  foldl (fun w' sid => handler_begin sid (currentUser w') w') w (listeners w).

(** [mockAuth.onAuthStateChanged(handler)] for the handler of subscriber
    [sid]: registers it and arms the 100 ms timer. *)
Definition mock_onAuthStateChanged (sid : nat) (w : World) : World :=
  set_timers (fun t => t ++ [sid]) (set_listeners (fun l => l ++ [sid]) w).

(** The returned unsubscribe function. *)
Definition unsubscribe (sid : nat) (w : World) : World :=
  set_listeners (filter (fun l => l <> sid)) w.

(** Readings of the JavaScript clock taken by [createUserWithEmailAndPassword]:
    [Date.now()], and the ISO string of the date thirty days later. *)
Record Clock := {
  now : Z;
  in30days : string;
}.

Definition email_in_use : Err :=
  {| code := Some "auth/email-already-in-use";
     message := Some "An account with this email already exists." |}.
Definition wrong_password : Err :=
  {| code := Some "auth/wrong-password";
     message := Some "Invalid email or password." |}.

(** The two credential calls resolve to [userCredential.user], which is
    [mockAuth._currentUser]. *)
Definition createUserWithEmailAndPassword (clk : Clock) (email password : string) :
    M (option FirebaseUser) :=
  modify (log (AuthCreateUser email password)) ;;
  profiles <- gets (fun w => userProfiles (db w)) ;;
  if existsb (field_is "email" email) (map_to_list profiles).*2 then
    reject email_in_use
  else
    let uid := "mock-uid-" +:+ pretty (now clk) in
    let user := {| uid := uid; fu_email := email |} in
    modify (set_currentUser (Some user)) ;;
    modify (set_db (set_users (jsmap_set uid
      {| acc_password := password; acc_email := email; acc_uid := uid |}))) ;;
    modify (set_db (set_userProfiles
      <[uid := {[ "id" := VStr uid; "email" := VStr email;
                  "plan" := VStr "free";
                  "trialEndDate" := VStr (in30days clk) ]}]>)) ;;
    modify notifyListeners ;;
    gets currentUser.

Definition signInWithEmailAndPassword (email password : string) :
    M (option FirebaseUser) :=
  modify (log (AuthSignIn email password)) ;;
  accounts <- gets (fun w => users (db w)) ;;
  match find (fun u => bool_decide (acc_email u = email)) accounts.*2 with
  | Some user =>
      if bool_decide (acc_password user = password) then
        let cur := {| uid := acc_uid user; fu_email := acc_email user |} in
        modify (set_currentUser (Some cur)) ;;
        modify notifyListeners ;;
        gets currentUser
      else reject wrong_password
  | None => reject wrong_password
  end.

Definition signOut : M unit :=
  modify (log AuthSignOut) ;;
  modify (set_currentUser None) ;;
  modify notifyListeners.

(** ** [mockFirestore] *)

(** [collection('users').doc(id).get()]: the snapshot ([exists] is
    [is_Some], [data()] the document). *)
Definition profile_get (id : string) : M (option Doc) :=
  modify (log (ProfileGet id)) ;;
  gets (fun w => userProfiles (db w) !! id).

(** [collection('users').doc(id).set(data)]. *)
Definition profile_set (id : string) (data : Doc) : M unit :=
  modify (log (ProfileSet id data)) ;;
  modify (set_db (set_userProfiles <[id := data]>)).

(** [userDreams.findIndex(d => d.id === subDocId)]; [None] is [-1]. *)
Fixpoint findIndex {A} (p : A -> bool) (l : list A) : option nat :=
  match l with
  | [] => None
  | x :: l' => if p x then Some 0%nat else S <$> findIndex p l'
  end.

(** [...collection('dreams').doc(subDocId).set(data)]. *)
Definition dream_set (id subDocId : string) (data : Doc) : M unit :=
  modify (log (DreamSet id subDocId data)) ;;
  modify (set_db (fun d =>
    let userDreams := default [] (dreams d !! id) in
    match findIndex (field_is "id" subDocId) userDreams with
    | Some existingIndex =>
        set_dreams <[id := <[existingIndex := data]> userDreams]> d
    | None => set_dreams <[id := userDreams ++ [data]]> d
    end)).

(** [...collection('dreams').doc(subDocId).update(data)]:
    [{ ...userDreams[dreamIndex], ...data }] when the dream is found, nothing
    otherwise. *)
Definition dream_update (id subDocId : string) (data : Doc) : M unit :=
  modify (log (DreamUpdate id subDocId data)) ;;
  modify (set_db (fun d =>
    let userDreams := default [] (dreams d !! id) in
    match findIndex (field_is "id" subDocId) userDreams with
    | Some dreamIndex =>
        match userDreams !! dreamIndex with
        | Some old =>
            set_dreams <[id := <[dreamIndex := data ∪ old]> userDreams]> d
        | None => d
        end
    | None => d
    end)).

(** [db.batch()]: [set] has an empty body and [commit] resolves at once. *)
Definition batch_set (id dreamId : string) (data : Doc) : M unit :=
  modify (log (BatchSet id dreamId data)).
Definition batch_commit : M unit :=
  modify (log BatchCommit).

(** ** [src/services/authService.ts] *)

(** [onAuthStateChanged(callback)] for the callback of subscriber [sid]. *)
Definition onAuthStateChanged (sid : nat) (w : World) : World :=
  mock_onAuthStateChanged sid w.

(** [{ id: firebaseUser.uid, email: firebaseUser.email, plan: 'free' }]. *)
Definition freeProfile (firebaseUser : FirebaseUser) : Doc :=
  {[ "id" := VStr (uid firebaseUser);
     "email" := VStr (fu_email firebaseUser);
     "plan" := VStr "free" ]}.

Definition error_of (msg : string) : Err :=
  {| code := None; message := Some msg |}.

Definition signUp (clk : Clock) (email password : string) : M Doc :=
  user <- createUserWithEmailAndPassword clk email password ;;
  match user with
  | None => reject (error_of "User creation failed.")
  | Some firebaseUser =>
      let newUser := freeProfile firebaseUser in
      profile_set (uid firebaseUser) newUser ;;
      ret newUser
  end.

Definition logIn (email password : string) : M Doc :=
  user <- signInWithEmailAndPassword email password ;;
  match user with
  | None => reject (error_of "Login failed.")
  | Some firebaseUser =>
      userDoc <- profile_get (uid firebaseUser) ;;
      match userDoc with
      | None =>
          let newUserProfile := freeProfile firebaseUser in
          profile_set (uid firebaseUser) newUserProfile ;;
          ret newUserProfile
      | Some data => ret data
      end
  end.

Definition logOut : M unit := signOut.

(** [dream.id]; a [Dream]'s id is a string by its TypeScript type. *)
Definition doc_id (d : Doc) : string :=
  match d !! "id" with
  | Some (VStr s) => s
  | _ => ""
  end.

Fixpoint forEach {A} (f : A -> M unit) (l : list A) : M unit :=
  match l with
  | [] => ret ()
  | x :: l' => f x ;; forEach f l'
  end.

Definition saveDreamForUser (userId : string) (dream : Doc) : M unit :=
  dream_set userId (doc_id dream) dream.

Definition saveAllDreamsForUser (userId : string) (dreams : list Doc) : M unit :=
  forEach (fun dream => batch_set userId (doc_id dream) dream) dreams ;;
  batch_commit.

Definition addChatMessageToDream (userId dreamId : string) (chatHistory : Value) :
    M unit :=
  dream_update userId dreamId {[ "chatHistory" := chatHistory ]}.

Section DreamOrder.
(** [new Date(x).getTime()] for a field read [x]: the milliseconds, or
    [None] for NaN (a missing, unparsable or out-of-range timestamp).  The
    [Dream] type and the format of its timestamps are declared outside these
    sources. *)
Variable getTime : option Value -> option Z.

(** The comparator [(a, b) => time(b) - time(a)]: NaN as soon as one of the
    two times is. *)
Definition by_timestamp_desc (a b : Doc) : option Z :=
  match getTime (b !! "timestamp"), getTime (a !! "timestamp") with
  | Some tb, Some ta => Some (tb - ta)
  | _, _ => None
  end.

(** What [Array.prototype.sort] makes of a comparator result: NaN counts
    as [+0]. *)
Definition sort_compare (a b : Doc) : Z := default 0 (by_timestamp_desc a b).

(** [Array.prototype.sort] is stable: an element stays in front of the
    later ones it does not compare greater than.  When some but not all
    timestamps are NaN the comparator is not consistent and the standard
    leaves the order to the engine; this is the order of a stable
    insertion sort. *)
Fixpoint sort_insert (d : Doc) (l : list Doc) : list Doc :=
  match l with
  | [] => [d]
  | x :: l' =>
      if sort_compare d x <=? 0 then d :: x :: l'
      else x :: sort_insert d l'
  end.
Definition sort_desc (l : list Doc) : list Doc := foldr sort_insert [] l.

(** [...collection('dreams').orderBy('timestamp', 'desc').get()], then
    [docs.map(doc => doc.data())]. *)
Definition dreams_orderBy_get (id : string) : M (list Doc) :=
  modify (log (DreamsGet id)) ;;
  gets (fun w => sort_desc (default [] (dreams (db w) !! id))).

Definition getDreamsForUser (userId : string) : M (list Doc) :=
  dreams_orderBy_get userId.
End DreamOrder.

(** ** The event loop around the session handlers *)

Inductive Action :=
  (** the provider changes [_currentUser] and notifies the listeners *)
  | Notify (firebaseUser : option FirebaseUser)
  (** the [k]-th suspended handler continues after its [await] *)
  | Resume (k : nat)
  (** the [k]-th armed timer fires: [callback(mockAuth._currentUser)] *)
  | Fire (k : nat).

Definition step (a : Action) (w : World) : World :=
  match a with
  | Notify firebaseUser => notifyListeners (set_currentUser firebaseUser w)
  | Resume k =>
      match pending w !! k with
      | Some (sid, userDoc) =>
          handler_resume sid userDoc (set_pending (delete k) w)
      | None => w
      end
  | Fire k =>
      match timers w !! k with
      | Some sid => handler_begin sid (currentUser w) (set_timers (delete k) w)
      | None => w
      end
  end.

Definition run (schedule : list Action) (w : World) : World :=
  foldl (fun w' a => step a w') w schedule.

(** The value a notification resolves to against a store. *)
Definition resolved (d : MockDb) (firebaseUser : option FirebaseUser) : SessionEvent :=
  match firebaseUser with
  | Some u => userProfiles d !! uid u
  | None => None
  end.

(** ** [src/components/AuthView.tsx] *)

Inductive Mode := login | signup.

Record Form := {
  mode : Mode;
  email : string;
  password : string;
  isLoading : bool;
  error : option string;
}.

Definition setMode (m : Mode) (f : Form) : Form :=
  {| mode := m; email := email f; password := password f;
     isLoading := isLoading f; error := error f |}.
Definition setEmail (s : string) (f : Form) : Form :=
  {| mode := mode f; email := s; password := password f;
     isLoading := isLoading f; error := error f |}.
Definition setPassword (s : string) (f : Form) : Form :=
  {| mode := mode f; email := email f; password := s;
     isLoading := isLoading f; error := error f |}.
Definition setIsLoading (b : bool) (f : Form) : Form :=
  {| mode := mode f; email := email f; password := password f;
     isLoading := b; error := error f |}.
Definition setError (e : option string) (f : Form) : Form :=
  {| mode := mode f; email := email f; password := password f;
     isLoading := isLoading f; error := e |}.

(** The [catch] block of [handleSubmit]: the text given to [setError]
    ([None] when [err.message] is read and is undefined). *)
Definition errorMessage (err : Err) : option string :=
  match code err with
  | Some c =>
      if str_falsy c then Some "An unexpected error occurred."
      else if bool_decide (c = "auth/user-not-found") then
        Some "Invalid email or password."
      else if bool_decide (c = "auth/wrong-password") then
        Some "Invalid email or password."
      else if bool_decide (c = "auth/email-already-in-use") then
        Some "An account with this email already exists."
      else if bool_decide (c = "auth/weak-password") then
        Some "Password should be at least 6 characters."
      else message err
  | None => Some "An unexpected error occurred."
  end.

(** The provider call [handleSubmit] makes for the current mode. *)
Definition submitCall (clk : Clock) (f : Form) : M Doc :=
  match mode f with
  | login => logIn (email f) (password f)
  | signup => signUp clk (email f) (password f)
  end.

(** The form state once [handleSubmit] has settled, and the world it leaves. *)
Definition handleSubmit (clk : Clock) (f : Form) (w : World) : Form * World :=
  if str_falsy (email f) || str_falsy (password f) then
    (setError (Some "Please enter both email and password.") f, w)
  else
    let f1 := setError None (setIsLoading true f) in
    match submitCall clk f w with
    | (inr _, w') => (setIsLoading false f1, w')
    | (inl err, w') => (setIsLoading false (setError (errorMessage err) f1), w')
    end.

Definition toggleMode (f : Form) : Form :=
  setPassword ""
    (setEmail ""
       (setError None
          (setMode (match mode f with login => signup | signup => login end) f))).

(** ** [src/functions/index.js] *)

(** The part of a Stripe event the webhook reads: [event.type] and
    [event.data.object.client_reference_id]. *)
Record StripeEvent := {
  ev_type : string;
  client_reference_id : option string;
}.

(** [req.rawBody] and [req.headers["stripe-signature"]]. *)
Record Request := {
  rawBody : string;
  stripe_signature : option string;
}.

Inductive Body :=
  | Text (s : string)
  | Json_received.

Record Response := {
  status : Z;
  body : Body;
}.

(** [!x] for an optional string such as [functions.config().stripe?.webhook_secret]
    or [session.client_reference_id]. *)
Definition opt_falsy (c : option string) : bool :=
  match c with
  | Some s => str_falsy s
  | None => true
  end.

(** [const hasUsedTrial = !!userData.trialEndDate]. *)
Definition hasUsedTrial (userData : Doc) : bool :=
  truthy (userData !! "trialEndDate").

Inductive HttpsError := unauthenticated | not_found | internal.

(** Step 3 of [createStripeCheckoutSession]: the price the session is
    created with. *)
Definition checkoutPriceId (userData : Doc) (price_id trial_price_id : option string) :
    HttpsError + string :=
  match price_id, trial_price_id with
  | Some regularPriceId, Some trialPriceId =>
      if str_falsy regularPriceId || str_falsy trialPriceId then inl internal
      else inr (if hasUsedTrial userData then regularPriceId else trialPriceId)
  | _, _ => inl internal
  end.

Section Webhook.
(** The hosted document database behind [admin.firestore()]. *)
Context {Firestore : Type}.
(** [stripeClient.webhooks.constructEvent(rawBody, signature, secret)]:
    the verified event, or the message of the error it throws. *)
Variable constructEvent : string -> option string -> string -> string + StripeEvent.
(** [collection("users").doc(id).update(data)]; [None] when the returned
    promise rejects. *)
Variable doc_update : string -> Doc -> Firestore -> option Firestore.

(** The response, the database afterwards, and the updates issued. *)
Definition stripeWebhook (webhook_secret : option string) (req : Request)
    (fs : Firestore) : Response * Firestore * list (string * Doc) :=
  match webhook_secret with
  | Some endpointSecret =>
      if str_falsy endpointSecret then
        ({| status := 400; body := Text "Webhook secret is not configured." |},
         fs, [])
      else
        match constructEvent (rawBody req) (stripe_signature req) endpointSecret with
        | inl err_message =>
            ({| status := 400; body := Text ("Webhook Error: " +:+ err_message) |},
             fs, [])
        | inr event =>
            if bool_decide (ev_type event = "checkout.session.completed") then
              if opt_falsy (client_reference_id event) then
                ({| status := 400;
                    body := Text "Webhook Error: Missing client_reference_id." |},
                 fs, [])
              else
                let firebaseUID := default "" (client_reference_id event) in
                let data : Doc := {[ "plan" := VStr "pro" ]} in
                match doc_update firebaseUID data fs with
                | Some fs' =>
                    ({| status := 200; body := Json_received |}, fs',
                     [(firebaseUID, data)])
                | None =>
                    ({| status := 500; body := Text "Internal server error." |},
                     fs, [(firebaseUID, data)])
                end
            else ({| status := 200; body := Json_received |}, fs, [])
        end
  | None =>
      ({| status := 400; body := Text "Webhook secret is not configured." |},
       fs, [])
  end.
End Webhook.

(** *** [createStripeCheckoutSession] *)

(** The argument of [stripeClient.checkout.sessions.create]; the constant
    fields ([payment_method_types: ["card"]], [mode: "subscription"],
    [quantity: 1]) are left out. *)
Record SessionParams := {
  sp_customer : Value;
  sp_price : string;
  sp_client_reference_id : string;
  sp_success_url : string;
  sp_cancel_url : option string;
}.

(** Calls made by [createStripeCheckoutSession], oldest first. *)
Inductive CheckoutCall :=
  | UserDocGet (id : string)
  | CustomersCreate (email : option Value) (firebaseUID : string)
  | UserDocUpdate (id : string) (data : Doc)
  | SessionsCreate (params : SessionParams).

(** How the callable ends: [{ id: session.id }], a thrown [HttpsError], or
    the rejection of one of the awaited calls, which the handler does not
    catch. *)
Inductive CheckoutResult :=
  | SessionId (id : string)
  | Https (e : HttpsError)
  | Uncaught.

Section Checkout.
Context {Firestore : Type}.
(** [userDocRef.get()] then [userDoc.data()]: [None] when the promise
    rejects, [Some None] when the document does not exist. *)
Variable doc_get : string -> Firestore -> option (option Doc).
(** [userDocRef.update(data)]; [None] when the promise rejects. *)
Variable doc_update : string -> Doc -> Firestore -> option Firestore.
(** [stripeClient.customers.create({ email, metadata: { firebaseUID } })]:
    [customer.id], or [None] when the promise rejects. *)
Variable customers_create : option Value -> string -> option string.
(** [stripeClient.checkout.sessions.create(params)]: [session.id], or
    [None] when the promise rejects. *)
Variable sessions_create : SessionParams -> option string.

(** Steps 3 and 4, once the customer id is known. *)
Definition checkout_session (price_id trial_price_id : option string)
    (uid : string) (origin : option string) (userData : Doc)
    (stripeCustomerId : Value) : CheckoutResult * list CheckoutCall :=
  match checkoutPriceId userData price_id trial_price_id with
  | inl e => (Https e, [])
  | inr priceId =>
      let params :=
        {| sp_customer := stripeCustomerId;
           sp_price := priceId;
           sp_client_reference_id := uid;
           sp_success_url :=
             default "undefined" origin +:+ "?session_id={CHECKOUT_SESSION_ID}";
           sp_cancel_url := origin |} in
      match sessions_create params with
      | Some id => (SessionId id, [SessionsCreate params])
      | None => (Uncaught, [SessionsCreate params])
      end
  end.

(** Step 2: the customer id stored in the profile when it is truthy;
    otherwise a customer is created and its id written to the profile.
    [None] when one of the two awaited calls rejects. *)
Definition find_or_create_customer (uid : string) (userData : Doc)
    (fs : Firestore) : option (Value * Firestore) * list CheckoutCall :=
  let create :=
    match customers_create (userData !! "email") uid with
    | None => (None, [CustomersCreate (userData !! "email") uid])
    | Some id =>
        let data : Doc := {[ "stripeCustomerId" := VStr id ]} in
        match doc_update uid data fs with
        | None =>
            (None, [CustomersCreate (userData !! "email") uid;
                    UserDocUpdate uid data])
        | Some fs' =>
            (Some (VStr id, fs'),
             [CustomersCreate (userData !! "email") uid; UserDocUpdate uid data])
        end
    end in
  match userData !! "stripeCustomerId" with
  | Some stripeCustomerId =>
      if truthy (Some stripeCustomerId) then (Some (stripeCustomerId, fs), [])
      else create
  | None => create
  end.

(** [auth] is [context.auth?.uid], [origin] is
    [context.rawRequest.headers.origin]. *)
Definition createStripeCheckoutSession (price_id trial_price_id : option string)
    (auth : option string) (origin : option string) (fs : Firestore) :
    CheckoutResult * Firestore * list CheckoutCall :=
  match auth with
  | None => (Https unauthenticated, fs, [])
  | Some uid =>
      match doc_get uid fs with
      | None => (Uncaught, fs, [UserDocGet uid])
      | Some None => (Https not_found, fs, [UserDocGet uid])
      | Some (Some userData) =>
          match find_or_create_customer uid userData fs with
          | (None, cs) => (Uncaught, fs, UserDocGet uid :: cs)
          | (Some (stripeCustomerId, fs'), cs) =>
              let '(r, cs') :=
                checkout_session price_id trial_price_id uid origin userData
                  stripeCustomerId in
              (r, fs', UserDocGet uid :: cs ++ cs')
          end
      end
  end.
End Checkout.

(** * Vocabulary of the properties *)

Definition known_codes : list string :=
  ["auth/user-not-found"; "auth/wrong-password";
   "auth/email-already-in-use"; "auth/weak-password"].

Definition generic_message : string := "An unexpected error occurred.".

(** The reading of the error mapping as a function of the code alone with a
    single fallback: some message [g] is the result for every error whose
    code is not one of the four known ones. *)
Definition single_fallback : Prop :=
  exists g : option string,
    forall err c, code err = Some c -> c ∉ known_codes -> errorMessage err = g.

(** [reads_only w w']: from [w] to [w'] the store, the listener list and the
    write calls are the same. *)
Definition reads_only (w w' : World) : Prop :=
  db w' = db w /\
  listeners w' = listeners w /\
  filter is_write (calls w') = filter is_write (calls w).

(** The uid the backend gives an account created at clock reading [clk]. *)
Definition mock_uid (clk : Clock) : string := "mock-uid-" +:+ pretty (now clk).

(** The profile [createUserWithEmailAndPassword] itself stores. *)
Definition trialProfile (clk : Clock) (email : string) : Doc :=
  {[ "id" := VStr (mock_uid clk); "email" := VStr email;
     "plan" := VStr "free"; "trialEndDate" := VStr (in30days clk) ]}.

(** The world right after a successful [createUserWithEmailAndPassword]. *)
Definition created (clk : Clock) (email password : string) (w : World) : World :=
  notifyListeners
    (set_db (set_userProfiles <[mock_uid clk := trialProfile clk email]>)
       (set_db (set_users (jsmap_set (mock_uid clk)
                  {| acc_password := password; acc_email := email;
                     acc_uid := mock_uid clk |}))
          (set_currentUser (Some {| uid := mock_uid clk; fu_email := email |})
             (log (AuthCreateUser email password) w)))).

Definition boot (d : MockDb) : World :=
  {| db := d; currentUser := None; listeners := []; timers := [];
     pending := []; emitted := []; calls := [] |}.

(** The application has subscribed once, as subscriber [0]. *)
Definition one_subscriber (d : MockDb) : World := onAuthStateChanged 0 (boot d).

Definition alice : FirebaseUser := {| uid := "u1"; fu_email := "a@x.com" |}.

Definition alice_account : Account :=
  {| acc_password := "secret1"; acc_email := "a@x.com"; acc_uid := "u1" |}.

(** Alice can sign in and has a profile. *)
Definition alice_db : MockDb :=
  {| users := [("u1", alice_account)];
     userProfiles := {[ "u1" := freeProfile alice ]};
     dreams := ∅ |}.

(** Alice can sign in but her profile document was never written. *)
Definition orphan_db : MockDb :=
  {| users := [("u1", alice_account)]; userProfiles := ∅; dreams := ∅ |}.




(** Alice is delivered, then "no identity", and Alice's handler continues
    after the second notification was answered. *)
Definition stale_schedule : list Action :=
  [Notify (Some alice); Notify None; Resume 0].


(** Self-healing in the listener: the resolution of a present identity
    without profile hands the synthesised profile to the callback and makes
    exactly one write, the [set] that persists it. *)
Definition self_heals (w : World) (sid : nat) (u : FirebaseUser) : Prop :=
  let w' := run [Notify (Some u); Resume (length (pending w))] w in
  emitted w' = emitted w ++ [(sid, Some (freeProfile u))] /\
  filter is_write (calls w') =
    filter is_write (calls w) ++ [ProfileSet (uid u) (freeProfile u)].

(** A dream with only an id and a numeric timestamp, and the reading of
    numeric timestamps as milliseconds. *)
Definition stamped (id : string) (t : Z) : Doc :=
  {[ "id" := VStr id; "timestamp" := VNum t ]}.

Definition num_time (v : option Value) : option Z :=
  match v with
  | Some (VNum n) => Some n
  | _ => None
  end.

Definition empty_db : MockDb := {| users := []; userProfiles := ∅; dreams := ∅ |}.

Definition noon : Clock := {| now := 1700000000000; in30days := "2023-12-14T22:13:20.000Z" |}.

Definition flying : Doc :=
  {[ "id" := VStr "d1"; "timestamp" := VNum 10; "content" := VStr "flying" ]}.

Definition dreamer_db : MockDb :=
  {| users := []; userProfiles := ∅; dreams := {[ "u1" := [flying] ]} |}.

(** A signature check that accepts exactly the secret itself as signature
    and reads the body as the correlation id of a completed checkout. *)
Definition toy_constructEvent (rawBody : string) (signature : option string)
    (secret : string) : string + StripeEvent :=
  if bool_decide (signature = Some secret) then
    inr {| ev_type := "checkout.session.completed";
           client_reference_id := Some rawBody |}
  else inl "No signatures found matching the expected signature for payload.".

(** A document database whose [update] rejects when the document is
    missing. *)
Definition toy_update (id : string) (data : Doc) (fs : gmap string Doc) :
    option (gmap string Doc) :=
  match fs !! id with
  | Some old => Some (<[id := data ∪ old]> fs)
  | None => None
  end.

(** What one round of [_notifyListeners] appends for the listeners [l]:
    the suspended handlers when a user is signed in, the "no session" events
    when none is. *)
Definition notified_pending (w : World) (l : list nat) : list (nat * option Doc) :=
  match currentUser w with
  | Some u => (fun sid => (sid, userProfiles (db w) !! uid u)) <$> l
  | None => []
  end.

Definition notified_emitted (w : World) (l : list nat) : list (nat * SessionEvent) :=
  match currentUser w with
  | Some _ => []
  | None => (fun sid => (sid, None)) <$> l
  end.

Definition notified_calls (w : World) (l : list nat) : list Call :=
  match currentUser w with
  | Some u => (fun _ => ProfileGet (uid u)) <$> l
  | None => []
  end.

(** Every profile a handler holds or has handed over is a document of the
    profile store. *)
Definition from_store (w : World) : Prop :=
  forall sid data,
    (sid, Some data) ∈ pending w ++ emitted w ->
    exists id, userProfiles (db w) !! id = Some data.

Definition is_auth_call (c : Call) : bool :=
  match c with
  | AuthCreateUser _ _ | AuthSignIn _ _ | AuthSignOut => true
  | _ => false
  end.

(** No stored profile carries this email: the test
    [[...mockDb.userProfiles.values()].some(u => u.email === email)] of
    account creation is false. *)
Definition email_free (email : string) (w : World) : Prop :=
  forall id d, userProfiles (db w) !! id = Some d -> d !! "email" <> Some (VStr email).

(** No account of [mockDb.users] carries this email. *)
Definition no_account (email : string) (w : World) : Prop :=
  forall a, a ∈ (users (db w)).*2 -> acc_email a <> email.

(** The dream carries a timestamp that [Date] can read. *)
Definition dated (getTime : option Value -> option Z) (d : Doc) : Prop :=
  is_Some (getTime (d !! "timestamp")).

(** [a] may stand before [b] in a newest-first list: both are dated and
    [b] is not newer than [a]. *)
Definition newer_first (getTime : option Value -> option Z) (a b : Doc) : Prop :=
  exists ta tb,
    getTime (a !! "timestamp") = Some ta /\
    getTime (b !! "timestamp") = Some tb /\ tb <= ta.

(** A user whose stored dreams are newest first, two of them with the same
    timestamp. *)
Definition tied_db : MockDb :=
  {| users := []; userProfiles := ∅;
     dreams := {[ "u1" := [stamped "b" 30; stamped "a" 10; stamped "c" 10] ]} |}.

(** A call of the checkout function that concerns the caller [uid] only:
    reads and updates go to the caller's document, the update writes the
    single field [stripeCustomerId], and the Stripe objects carry the
    caller's uid. *)
Definition call_for (uid : string) (c : CheckoutCall) : Prop :=
  match c with
  | UserDocGet id => id = uid
  | CustomersCreate _ firebaseUID => firebaseUID = uid
  | UserDocUpdate id data =>
      id = uid /\ exists cid, data = {[ "stripeCustomerId" := VStr cid ]}
  | SessionsCreate params => sp_client_reference_id params = uid
  end.

(** Stand-ins for the hosted services: documents in a map, customers
    named after the uid, sessions named after the price. *)
Definition toy_get (id : string) (fs : gmap string Doc) : option (option Doc) :=
  Some (fs !! id).

Definition toy_customers_create (email : option Value) (firebaseUID : string) :
    option string :=
  Some ("cus_" +:+ firebaseUID).

Definition toy_sessions_create (params : SessionParams) : option string :=
  Some ("cs_" +:+ sp_price params).

(** What [logIn] does once the provider call has resolved to [user], and
    what [signUp] does once account creation has: the code after their
    first [await]. *)
Definition logIn_after_signIn (user : option FirebaseUser) : M Doc :=
  match user with
  | None => reject (error_of "Login failed.")
  | Some firebaseUser =>
      userDoc <- profile_get (uid firebaseUser) ;;
      match userDoc with
      | None =>
          let newUserProfile := freeProfile firebaseUser in
          profile_set (uid firebaseUser) newUserProfile ;;
          ret newUserProfile
      | Some data => ret data
      end
  end.

Definition signUp_after_create (user : option FirebaseUser) : M Doc :=
  match user with
  | None => reject (error_of "User creation failed.")
  | Some firebaseUser =>
      let newUser := freeProfile firebaseUser in
      profile_set (uid firebaseUser) newUser ;;
      ret newUser
  end.




(** A dream without timestamp. *)
Definition undated_dream : Doc := {[ "id" := VStr "x" ]}.

(** * Properties *)

(** ** The auth form *)

(** Closes [c ∉ known_codes] for a literal [c]. *)
Ltac not_known :=
  unfold known_codes; rewrite !elem_of_cons, elem_of_nil;
  intros [H | [H | [H | [H | []]]]]; discriminate H.

Example errorMessage_wrong_password :
  errorMessage wrong_password = Some "Invalid email or password.".
Proof. reflexivity. Qed.

Example errorMessage_plain_Error :
  errorMessage (error_of "Login failed.") = Some generic_message.
Proof. reflexivity. Qed.

(** C4, as stated, fails: two errors with unknown codes are shown with two
    different texts, each the provider's own message. *)
Lemma errorMessage_no_single_fallback : ~ single_fallback.
Proof.
  intros [g Hg].
  pose (e1 := {| code := Some "auth/too-many-requests";
                 message := Some "Too many attempts." |}).
  pose (e2 := {| code := Some "auth/network-request-failed";
                 message := Some "Network error." |}).
  assert (H1 : errorMessage e1 = g).
  { apply (Hg e1 "auth/too-many-requests"); [reflexivity|].
    not_known. }
  assert (H2 : errorMessage e2 = g).
  { apply (Hg e2 "auth/network-request-failed"); [reflexivity|].
    not_known. }
  rewrite <- H2 in H1. vm_compute in H1. discriminate H1.
Qed.

(** C4 (amended): the mapping is total; the four known codes have their
    fixed messages (a wrong credential gives "Invalid email or password."),
    an error without a code (or with an empty one) gives the generic
    message, and any other code gives the provider's own message. *)
Theorem errorMessage_cases (err : Err) :
  (code err = Some "auth/user-not-found" \/ code err = Some "auth/wrong-password" ->
     errorMessage err = Some "Invalid email or password.") /\
  (code err = Some "auth/email-already-in-use" ->
     errorMessage err = Some "An account with this email already exists.") /\
  (code err = Some "auth/weak-password" ->
     errorMessage err = Some "Password should be at least 6 characters.") /\
  (code err = None \/ code err = Some "" ->
     errorMessage err = Some generic_message) /\
  (forall c, code err = Some c -> c <> "" -> c ∉ known_codes ->
     errorMessage err = message err).
Proof.
  unfold errorMessage. repeat split.
  - intros [-> | ->]; reflexivity.
  - intros ->; reflexivity.
  - intros ->; reflexivity.
  - intros [-> | ->]; reflexivity.
  - intros c -> Hne Hc.
    unfold known_codes in Hc. rewrite !elem_of_cons, elem_of_nil in Hc.
    unfold str_falsy. destruct (String.eqb_spec c ""); [done|].
    repeat case_bool_decide; subst; tauto.
Qed.

Lemma errorMessage_cases_witness :
  errorMessage wrong_password = Some "Invalid email or password." /\
  errorMessage {| code := Some "auth/too-many-requests";
                  message := Some "Too many attempts." |}
    = Some "Too many attempts.".
Proof.
  split.
  - apply (proj1 (errorMessage_cases wrong_password)). right. reflexivity.
  - apply (proj2 (proj2 (proj2 (proj2 (errorMessage_cases
             {| code := Some "auth/too-many-requests";
                message := Some "Too many attempts." |}))))
             "auth/too-many-requests").
    + reflexivity.
    + discriminate.
    + not_known.
Defined.

(** C9: toggling the mode flips it and clears the email, the password and
    the error; the loading flag is not touched. *)
Theorem toggleMode_resets (f : Form) :
  email (toggleMode f) = "" /\
  password (toggleMode f) = "" /\
  error (toggleMode f) = None /\
  mode (toggleMode f) = match mode f with login => signup | signup => login end /\
  isLoading (toggleMode f) = isLoading f.
Proof. repeat split. Qed.

(** ** The session handlers only read *)

Lemma reads_only_refl w : reads_only w w.
Proof. by repeat split. Qed.

Lemma reads_only_trans w1 w2 w3 :
  reads_only w1 w2 -> reads_only w2 w3 -> reads_only w1 w3.
Proof.
  intros (?&?&?) (?&?&?). repeat split; congruence.
Qed.

Lemma handler_begin_reads_only sid fu w : reads_only w (handler_begin sid fu w).
Proof.
  destruct fu as [u|]; repeat split; simpl.
  by rewrite filter_app, app_nil_r.
Qed.

Lemma handler_begin_currentUser sid fu w :
  currentUser (handler_begin sid fu w) = currentUser w.
Proof. by destruct fu. Qed.


Lemma notify_fold_reads_only (l : list nat) w :
  reads_only w (foldl (fun w' sid => handler_begin sid (currentUser w') w') w l) /\
  currentUser (foldl (fun w' sid => handler_begin sid (currentUser w') w') w l)
    = currentUser w.
Proof.
  revert w. induction l as [|sid l IH]; intros w; simpl.
  - split; [apply reads_only_refl | done].
  - destruct (IH (handler_begin sid (currentUser w) w)) as [Hr Hc]. split.
    + eapply reads_only_trans; [apply handler_begin_reads_only | exact Hr].
    + by rewrite Hc, handler_begin_currentUser.
Qed.

Lemma notifyListeners_reads_only w : reads_only w (notifyListeners w).
Proof. apply notify_fold_reads_only. Qed.

Lemma notifyListeners_currentUser w :
  currentUser (notifyListeners w) = currentUser w.
Proof. apply notify_fold_reads_only. Qed.




(** One subscriber: a notification with an identity, followed at once by the
    continuation of the handler it suspended. *)
Lemma resolve_present w sid u :
  listeners w = [sid] ->
  run [Notify (Some u); Resume (length (pending w))] w
  = emit sid (userProfiles (db w) !! uid u)
      (log (ProfileGet (uid u)) (set_currentUser (Some u) w)).
Proof.
  intros Hl. unfold run, notifyListeners; cbn [foldl step].
  unfold notifyListeners. cbn [listeners set_currentUser]. rewrite Hl.
  cbn [foldl]. unfold handler_begin, set_currentUser, set_pending, log.
  cbn [currentUser pending db calls].
  rewrite list_lookup_middle by done.
  unfold handler_resume, emit; cbn [currentUser pending db calls listeners timers emitted].
  rewrite delete_middle, app_nil_r.
  by destruct (userProfiles (db w) !! uid u).
Qed.


(** ** What the backend's provider calls return *)

#[local] Arguments notifyListeners : simpl never.
#[local] Arguments pretty : simpl never.
#[local] Arguments String.append : simpl never.

Lemma signIn_eq email password w :
  signInWithEmailAndPassword email password w
  = match find (fun u => bool_decide (acc_email u = email)) (users (db w)).*2 with
    | Some user =>
        if bool_decide (acc_password user = password) then
          let cur := {| uid := acc_uid user; fu_email := acc_email user |} in
          (inr (Some cur),
           notifyListeners
             (set_currentUser (Some cur) (log (AuthSignIn email password) w)))
        else (inl wrong_password, log (AuthSignIn email password) w)
    | None => (inl wrong_password, log (AuthSignIn email password) w)
    end.
Proof.
  unfold signInWithEmailAndPassword, bind, modify, gets, reject; cbn.
  destruct (find _ _) as [user|]; [|done].
  case_bool_decide; cbn; [|done].
  by rewrite notifyListeners_currentUser.
Qed.

Lemma signIn_ok email password w user :
  find (fun u => bool_decide (acc_email u = email)) (users (db w)).*2 = Some user ->
  acc_password user = password ->
  let cur := {| uid := acc_uid user; fu_email := acc_email user |} in
  signInWithEmailAndPassword email password w
  = (inr (Some cur),
     notifyListeners (set_currentUser (Some cur) (log (AuthSignIn email password) w))).
Proof.
  intros Hfind Hpw cur. rewrite signIn_eq, Hfind.
  by rewrite bool_decide_true.
Qed.

Lemma createUser_eq clk email password w :
  createUserWithEmailAndPassword clk email password w
  = if existsb (field_is "email" email) (map_to_list (userProfiles (db w))).*2
    then (inl email_in_use, log (AuthCreateUser email password) w)
    else (inr (Some {| uid := mock_uid clk; fu_email := email |}),
          created clk email password w).
Proof.
  unfold createUserWithEmailAndPassword, bind, modify, gets, reject; cbn.
  destruct (existsb _ _); cbn; [done|].
  fold (mock_uid clk). fold (trialProfile clk email).
  by rewrite notifyListeners_currentUser.
Qed.

Lemma created_db clk email password w :
  userProfiles (db (created clk email password w))
  = <[mock_uid clk := trialProfile clk email]> (userProfiles (db w)).
Proof.
  unfold created. by rewrite (proj1 (notifyListeners_reads_only _)).
Qed.

(** ** The session synchroniser *)

(** C7: with one subscriber and an existing profile, resolving the same
    identity twice hands the same profile to the callback both times; the
    second resolution leaves the store as it is and its only call is the
    [get]. *)
Theorem resolve_existing_twice w sid u profile :
  listeners w = [sid] ->
  userProfiles (db w) !! uid u = Some profile ->
  let w1 := run [Notify (Some u); Resume (length (pending w))] w in
  let w2 := run [Notify (Some u); Resume (length (pending w1))] w1 in
  emitted w1 = emitted w ++ [(sid, Some profile)] /\
  emitted w2 = emitted w1 ++ [(sid, Some profile)] /\
  db w2 = db w1 /\
  calls w2 = calls w1 ++ [ProfileGet (uid u)] /\
  filter is_write (calls w2) = filter is_write (calls w1).
Proof.
  intros Hl Hp w1 w2.
  assert (E1 : w1 = emit sid (Some profile)
                 (log (ProfileGet (uid u)) (set_currentUser (Some u) w))).
  { unfold w1. by rewrite (resolve_present w sid u Hl), Hp. }
  assert (E2 : w2 = emit sid (Some profile)
                 (log (ProfileGet (uid u)) (set_currentUser (Some u) w1))).
  { unfold w2. rewrite (resolve_present w1 sid u); [|by rewrite E1].
    f_equal. rewrite E1. exact Hp. }
  split; [by rewrite E1|]. split; [by rewrite E2|].
  split; [by rewrite E2|]. split; [by rewrite E2|].
  rewrite E2. cbn. by rewrite filter_app, app_nil_r.
Qed.

Lemma resolve_existing_twice_witness :
  let w := one_subscriber alice_db in
  let w1 := run [Notify (Some alice); Resume 0] w in
  let w2 := run [Notify (Some alice); Resume 0] w1 in
  emitted w2 = [(0%nat, Some (freeProfile alice)); (0%nat, Some (freeProfile alice))] /\
  db w2 = db w1.
Proof.
  intros w w1 w2.
  destruct (resolve_existing_twice w 0 alice (freeProfile alice))
    as (H1 & H2 & H3 & _); [reflexivity | reflexivity |].
  split; [|exact H3].
  change (emitted w2 = (emitted w ++ [(0%nat, Some (freeProfile alice))])
                         ++ [(0%nat, Some (freeProfile alice))]).
  rewrite <- H1. exact H2.
Defined.

Example stale_schedule_emitted :
  emitted (run stale_schedule (one_subscriber alice_db))
  = [(0%nat, None); (0%nat, Some (freeProfile alice))].
Proof. reflexivity. Qed.



Example orphan_resolution :
  let w' := run [Notify (Some alice); Resume 0] (one_subscriber orphan_db) in
  emitted w' = [(0%nat, None)] /\ calls w' = [ProfileGet "u1"] /\
  userProfiles (db w') = ∅.
Proof. repeat split. Qed.

(** C1, as stated, fails: the listener treats the identity as logged out
    and writes nothing. *)
Lemma listener_does_not_self_heal :
  userProfiles (db (one_subscriber orphan_db)) !! uid alice = None /\
  ~ self_heals (one_subscriber orphan_db) 0 alice.
Proof.
  split; [reflexivity|].
  intros [H _]. vm_compute in H. discriminate H.
Qed.

(** C1 (amended): for a present identity without profile document the
    session listener hands "no session" to the callback and writes nothing;
    it is [logIn] that, after a successful sign-in of such an identity,
    synthesises [{id, email, plan: free}], persists it with exactly one
    [set] and returns it. *)
Theorem missing_profile_paths (w : World) :
  (forall sid u,
     listeners w = [sid] ->
     userProfiles (db w) !! uid u = None ->
     let w' := run [Notify (Some u); Resume (length (pending w))] w in
     emitted w' = emitted w ++ [(sid, None)] /\
     db w' = db w /\
     filter is_write (calls w') = filter is_write (calls w)) /\
  (forall email password user,
     find (fun a => bool_decide (acc_email a = email)) (users (db w)).*2 = Some user ->
     acc_password user = password ->
     userProfiles (db w) !! acc_uid user = None ->
     let u := {| uid := acc_uid user; fu_email := acc_email user |} in
     let w' := (logIn email password w).2 in
     (logIn email password w).1 = inr (freeProfile u) /\
     userProfiles (db w') = <[uid u := freeProfile u]> (userProfiles (db w)) /\
     filter is_write (calls w') =
       filter is_write (calls w) ++ [ProfileSet (uid u) (freeProfile u)]).
Proof.
  split.
  - intros sid u Hl Hp w'. unfold w'.
    rewrite (resolve_present w sid u Hl), Hp. cbn.
    by rewrite filter_app, app_nil_r.
  - intros email password user Hfind Hpw Hp u w'. subst u w'. unfold logIn, bind.
    rewrite (signIn_ok email password w user Hfind Hpw).
    set (w1 := notifyListeners _).
    assert (Hdb : db w1 = db w).
    { unfold w1. by rewrite (proj1 (notifyListeners_reads_only _)). }
    assert (Hwr : filter is_write (calls w1) = filter is_write (calls w)).
    { unfold w1.
      rewrite (proj2 (proj2 (notifyListeners_reads_only _))). cbn.
      by rewrite filter_app, app_nil_r. }
    clearbody w1.
    unfold profile_get, profile_set, bind, modify, gets, ret. cbn.
    rewrite Hdb, Hp. cbn. rewrite Hdb.
    repeat split.
    rewrite !filter_app, Hwr. cbn. by rewrite app_nil_r.
Qed.

Lemma missing_profile_paths_witness :
  emitted (run [Notify (Some alice); Resume 0] (one_subscriber orphan_db))
    = [(0%nat, None)] /\
  (logIn "a@x.com" "secret1" (one_subscriber orphan_db)).1
    = inr (freeProfile alice).
Proof.
  split.
  - exact (proj1 (proj1 (missing_profile_paths (one_subscriber orphan_db))
                    0%nat alice eq_refl eq_refl)).
  - exact (proj1 (proj2 (missing_profile_paths (one_subscriber orphan_db))
                    "a@x.com" "secret1" alice_account eq_refl eq_refl eq_refl)).
Defined.

(** ** Sign-up *)

Example trialProfile_has_trial clk email :
  trialProfile clk email !! "trialEndDate" = Some (VStr (in30days clk)) /\
  hasUsedTrial (trialProfile clk email) = negb (str_falsy (in30days clk)).
Proof. split; reflexivity. Qed.

(** Sign-up on an empty store with one subscriber: the free profile is
    returned and stored, while the listener, notified during account
    creation, later hands over the snapshot it took then. *)
Example signUp_on_empty_store :
  let r := signUp noon "a@x.com" "secret1" (one_subscriber empty_db) in
  r.1 = inr {[ "id" := VStr "mock-uid-1700000000000";
               "email" := VStr "a@x.com"; "plan" := VStr "free" ]} /\
  userProfiles (db r.2) !! "mock-uid-1700000000000"
    = Some {[ "id" := VStr "mock-uid-1700000000000";
              "email" := VStr "a@x.com"; "plan" := VStr "free" ]} /\
  emitted (run [Resume 0] r.2) = [(0%nat, Some (trialProfile noon "a@x.com"))].
Proof. vm_compute. repeat split. Qed.

(** C10: when [signUp] succeeds, the document stored under the new uid is
    exactly [{id, email, plan: 'free'}]: the profile with [trialEndDate]
    that account creation had written there is replaced, the field is
    absent afterwards, and the checkout function's has-used-trial test on
    the stored document is false. *)
Theorem signUp_overwrites_trial clk email password w profile w' :
  signUp clk email password w = (inr profile, w') ->
  let id := mock_uid clk in
  let stored : Doc := {[ "id" := VStr id; "email" := VStr email;
                         "plan" := VStr "free" ]} in
  userProfiles (db (created clk email password w)) !! id
    = Some (trialProfile clk email) /\
  profile = stored /\
  userProfiles (db w') !! id = Some stored /\
  stored !! "trialEndDate" = None /\
  hasUsedTrial stored = false.
Proof.
  intros H id stored.
  split; [by rewrite created_db, lookup_insert_eq|].
  unfold signUp, bind in H. rewrite createUser_eq in H.
  destruct (existsb _ _); [discriminate|].
  unfold profile_set, bind, modify, ret in H. cbn in H.
  injection H as <- <-. cbn.
  split; [done|]. split; [by rewrite lookup_insert_eq|].
  split; reflexivity.
Qed.

Lemma signUp_overwrites_trial_witness :
  userProfiles (db (signUp noon "a@x.com" "secret1" (boot empty_db)).2)
    !! mock_uid noon
  = Some {[ "id" := VStr (mock_uid noon); "email" := VStr "a@x.com";
            "plan" := VStr "free" ]}.
Proof.
  exact (proj1 (proj2 (proj2 (signUp_overwrites_trial noon "a@x.com" "secret1"
           (boot empty_db) _ _ eq_refl)))).
Defined.

(** ** Submitting the form *)

Lemma logIn_rejected email password w err w' :
  logIn email password w = (inl err, w') -> err = wrong_password.
Proof.
  unfold logIn, bind. rewrite signIn_eq.
  destruct (find _ _) as [user|]; [|by intros [= <- _]].
  case_bool_decide; [|by intros [= <- _]].
  unfold profile_get, profile_set, bind, modify, gets, ret; cbn.
  destruct (userProfiles _ !! _); discriminate.
Qed.

Lemma signUp_rejected clk email password w err w' :
  signUp clk email password w = (inl err, w') -> err = email_in_use.
Proof.
  unfold signUp, bind. rewrite createUser_eq.
  destruct (existsb _ _); [by intros [= <- _]|].
  unfold profile_set, bind, modify, ret; cbn. discriminate.
Qed.

Lemma str_falsy_true s : str_falsy s = true <-> s = "".
Proof. unfold str_falsy. by destruct (String.eqb_spec s ""). Qed.

(** C8: with an empty email or password the validation message is set and
    the world is returned as it was (no provider call, no store access);
    when the provider call fails, the mapped message is set (there is one)
    and the loading flag is cleared. *)
Theorem handleSubmit_error_paths clk f w :
  (email f = "" \/ password f = "" ->
     handleSubmit clk f w
     = (setError (Some "Please enter both email and password.") f, w)) /\
  (forall err w',
     email f <> "" -> password f <> "" ->
     submitCall clk f w = (inl err, w') ->
     let f' := (handleSubmit clk f w).1 in
     error f' = errorMessage err /\
     is_Some (error f') /\
     isLoading f' = false /\
     (handleSubmit clk f w).2 = w').
Proof.
  unfold handleSubmit. split.
  - intros H.
    assert (str_falsy (email f) || str_falsy (password f) = true) as ->; [|done].
    apply orb_true_iff. by rewrite !str_falsy_true.
  - intros err w' He Hp Hcall.
    assert (str_falsy (email f) || str_falsy (password f) = false) as ->.
    { apply orb_false_iff.
      split; apply not_true_is_false; by rewrite str_falsy_true. }
    rewrite Hcall. cbn. repeat split.
    unfold submitCall in Hcall. destruct (mode f).
    + apply logIn_rejected in Hcall as ->. by eexists.
    + apply signUp_rejected in Hcall as ->. by eexists.
Qed.

Lemma handleSubmit_error_paths_witness :
  handleSubmit noon
    {| mode := login; email := ""; password := "secret1";
       isLoading := false; error := None |} (one_subscriber alice_db)
  = ({| mode := login; email := ""; password := "secret1"; isLoading := false;
        error := Some "Please enter both email and password." |},
     one_subscriber alice_db) /\
  error (handleSubmit noon
    {| mode := login; email := "a@x.com"; password := "guess";
       isLoading := false; error := None |} (one_subscriber alice_db)).1
  = Some "Invalid email or password.".
Proof.
  split.
  - apply (proj1 (handleSubmit_error_paths noon
       {| mode := login; email := ""; password := "secret1";
          isLoading := false; error := None |} (one_subscriber alice_db))).
    left. reflexivity.
  - refine (proj1 (proj2 (handleSubmit_error_paths noon
       {| mode := login; email := "a@x.com"; password := "guess";
          isLoading := false; error := None |} (one_subscriber alice_db))
       wrong_password _ _ _ eq_refl)); discriminate.
Defined.

(** ** The dream store *)

Lemma findIndex_Some {A} (p : A -> bool) l i :
  findIndex p l = Some i <->
  exists x, l !! i = Some x /\ p x = true /\
    forall j y, (j < i)%nat -> l !! j = Some y -> p y = false.
Proof.
  revert i. induction l as [|a l IH]; intros i; simpl.
  - split; [discriminate | by intros (x & ? & _)].
  - destruct (p a) eqn:Hpa.
    + split.
      * intros [= <-]. exists a. repeat split; [done|]. intros j y Hj. lia.
      * intros (x & Hx & Hpx & Hmin). destruct i as [|i]; [done|].
        specialize (Hmin 0%nat a ltac:(lia) eq_refl). congruence.
    + destruct (findIndex p l) as [k|] eqn:Hk; simpl.
      * split.
        -- intros [= <-]. destruct (proj1 (IH k) eq_refl) as (x & Hx & Hpx & Hmin).
           exists x. repeat split; [done..|].
           intros [|j] y Hj Hy; simpl in Hy; [congruence|].
           apply (Hmin j); [lia | done].
        -- intros (x & Hx & Hpx & Hmin). destruct i as [|i]; simpl in Hx.
           { congruence. }
           f_equal. assert (Some k = Some i) as [= ->]; [|done].
           apply IH. exists x. repeat split; [done..|].
           intros j y Hj Hy. apply (Hmin (S j)); [lia | done].
      * split; [discriminate|].
        intros (x & Hx & Hpx & Hmin). destruct i as [|i]; simpl in Hx.
        { congruence. }
        assert (None = Some i) as [=]. apply IH.
        exists x. repeat split; [done..|].
        intros j y Hj Hy. apply (Hmin (S j)); [lia | done].
Qed.

Lemma findIndex_None {A} (p : A -> bool) l :
  (forall x, x ∈ l -> p x = false) -> findIndex p l = None.
Proof.
  induction l as [|a l IH]; intros H; simpl; [done|].
  rewrite (H a) by left. rewrite IH; [done|].
  intros x Hx. apply H. by right.
Qed.

Lemma field_is_true field s d : field_is field s d = true <-> d !! field = Some (VStr s).
Proof. unfold field_is. by rewrite bool_decide_eq_true. Qed.

Lemma field_is_false field s d : field_is field s d = false <-> d !! field <> Some (VStr s).
Proof. unfold field_is. by rewrite bool_decide_eq_false. Qed.

(** C6: [addChatMessageToDream] never rejects; when the user's list has a
    dream with the given id, the first such dream is replaced by itself
    with the patch field [chatHistory] merged over it (every other field
    kept) and nothing else in the store changes; when there is none, the
    store is left exactly as it was. *)
Theorem addChatMessageToDream_spec userId dreamId chatHistory w :
  let r := addChatMessageToDream userId dreamId chatHistory w in
  let userDreams := default [] (dreams (db w) !! userId) in
  r.1 = inr () /\
  (forall i old,
     userDreams !! i = Some old ->
     old !! "id" = Some (VStr dreamId) ->
     (forall j d, (j < i)%nat -> userDreams !! j = Some d ->
        d !! "id" <> Some (VStr dreamId)) ->
     let merged : Doc := {[ "chatHistory" := chatHistory ]} ∪ old in
     db r.2 = set_dreams <[userId := <[i := merged]> userDreams]> (db w) /\
     merged !! "chatHistory" = Some chatHistory /\
     (forall k, k <> "chatHistory" -> merged !! k = old !! k)) /\
  ((forall d, d ∈ userDreams -> d !! "id" <> Some (VStr dreamId)) ->
     db r.2 = db w).
Proof.
  intros r userDreams.
  unfold addChatMessageToDream, dream_update, bind, modify in r. cbn in r.
  split; [done|]. split.
  - intros i old Hi Hid Hmin merged. subst r. cbn. fold userDreams.
    assert (findIndex (field_is "id" dreamId) userDreams = Some i) as ->.
    { apply findIndex_Some. exists old.
      split; [done|]. split; [by apply field_is_true|].
      intros j d Hj Hd. apply field_is_false. by eapply Hmin. }
    rewrite Hi. split; [done|]. split.
    + unfold merged. by rewrite lookup_union_l', lookup_singleton_eq.
    + intros k Hk. unfold merged.
      rewrite lookup_union_r; [done|]. by rewrite lookup_singleton_ne.
  - intros Hno. subst r. cbn. fold userDreams.
    rewrite findIndex_None; [done|].
    intros d Hd. apply field_is_false. by apply Hno.
Qed.

Lemma addChatMessageToDream_spec_witness :
  db (addChatMessageToDream "u1" "d1" (VList ["hello"]) (boot dreamer_db)).2
  = set_dreams <["u1" := [ {[ "chatHistory" := VList ["hello"] ]} ∪ flying ]]>
      dreamer_db /\
  db (addChatMessageToDream "u1" "d2" (VList ["hello"]) (boot dreamer_db)).2
  = dreamer_db.
Proof.
  split.
  - refine (proj1 (proj1 (proj2 (addChatMessageToDream_spec "u1" "d1"
              (VList ["hello"]) (boot dreamer_db))) 0%nat flying eq_refl eq_refl _)).
    intros j d Hj. lia.
  - apply (proj2 (proj2 (addChatMessageToDream_spec "u1" "d2"
              (VList ["hello"]) (boot dreamer_db)))).
    intros d Hd. apply list_elem_of_singleton in Hd. subst d. discriminate.
Defined.

Example sort_desc_newest_first :
  sort_desc num_time
    [stamped "a" 10; stamped "b" 30; stamped "c" 10; stamped "d" 20]
  = [stamped "b" 30; stamped "d" 20; stamped "a" 10; stamped "c" 10].
Proof. reflexivity. Qed.

Example saveDream_then_list :
  let w := (saveDreamForUser "u1" (stamped "b" 30)
              (saveDreamForUser "u1" (stamped "a" 10) (boot empty_db)).2).2 in
  (getDreamsForUser num_time "u1" w).1 = inr [stamped "b" 30; stamped "a" 10] /\
  (getDreamsForUser num_time "u1"
     (saveAllDreamsForUser "u1" [stamped "c" 20] w).2).1
    = inr [stamped "b" 30; stamped "a" 10].
Proof. vm_compute. split; reflexivity. Qed.




(** ** The payment webhook *)

Section WebhookProps.
Context {Firestore : Type}.
Variable constructEvent : string -> option string -> string -> string + StripeEvent.
Variable doc_update : string -> Doc -> Firestore -> option Firestore.

(** C5: with the signing secret configured, a request whose signature
    verification fails is answered 400 and so is a verified
    checkout-completed event without correlation id, both without any
    update; a verified checkout-completed event with a correlation id
    issues exactly one update, [plan := "pro"] on that user's document,
    and is answered 200 when the update succeeds and 500 when it fails. *)
Theorem stripeWebhook_responses (secret : string) (req : Request) (fs : Firestore) :
  secret <> "" ->
  let out := stripeWebhook constructEvent doc_update (Some secret) req fs in
  let verified := constructEvent (rawBody req) (stripe_signature req) secret in
  (forall msg, verified = inl msg ->
     status out.1.1 = 400 /\ out.2 = [] /\ out.1.2 = fs) /\
  (forall event,
     verified = inr event ->
     ev_type event = "checkout.session.completed" ->
     client_reference_id event = None \/ client_reference_id event = Some "" ->
     status out.1.1 = 400 /\ out.2 = [] /\ out.1.2 = fs) /\
  (forall event firebaseUID,
     verified = inr event ->
     ev_type event = "checkout.session.completed" ->
     client_reference_id event = Some firebaseUID -> firebaseUID <> "" ->
     out.2 = [(firebaseUID, {[ "plan" := VStr "pro" ]})] /\
     (forall fs', doc_update firebaseUID {[ "plan" := VStr "pro" ]} fs = Some fs' ->
        status out.1.1 = 200 /\ out.1.2 = fs') /\
     (doc_update firebaseUID {[ "plan" := VStr "pro" ]} fs = None ->
        status out.1.1 = 500 /\ out.1.2 = fs)).
Proof.
  intros Hsecret out verified. subst out. unfold stripeWebhook.
  assert (str_falsy secret = false) as ->.
  { apply not_true_is_false. by rewrite str_falsy_true. }
  fold verified. split; [|split].
  - by intros msg ->.
  - intros event -> Hty Hid. rewrite bool_decide_true by done.
    by destruct Hid as [-> | ->].
  - intros event firebaseUID -> Hty Hid Hne. rewrite bool_decide_true by done.
    rewrite Hid. cbn.
    assert (str_falsy firebaseUID = false) as ->.
    { apply not_true_is_false. by rewrite str_falsy_true. }
    destruct (doc_update firebaseUID _ fs) as [fs1|]; cbn.
    + split; [done|]. split; [by intros fs' [= <-] | discriminate].
    + split; [done|]. split; [discriminate | done].
Qed.

(** A missing or empty signing secret is answered 400 before anything is
    verified. *)
Lemma stripeWebhook_unconfigured secret req fs :
  opt_falsy secret = true ->
  stripeWebhook constructEvent doc_update secret req fs
  = ({| status := 400; body := Text "Webhook secret is not configured." |}, fs, []).
Proof.
  unfold stripeWebhook, opt_falsy. destruct secret as [s|]; [|done].
  by intros ->.
Qed.

(** Verified events of any other type are acknowledged without update. *)
Lemma stripeWebhook_other_event secret req fs event :
  secret <> "" ->
  constructEvent (rawBody req) (stripe_signature req) secret = inr event ->
  ev_type event <> "checkout.session.completed" ->
  stripeWebhook constructEvent doc_update (Some secret) req fs
  = ({| status := 200; body := Json_received |}, fs, []).
Proof.
  intros Hs Hev Hty. unfold stripeWebhook.
  assert (str_falsy secret = false) as ->.
  { apply not_true_is_false. by rewrite str_falsy_true. }
  by rewrite Hev, bool_decide_false.
Qed.
End WebhookProps.

Lemma stripeWebhook_responses_witness :
  status (stripeWebhook toy_constructEvent toy_update (Some "whsec")
            {| rawBody := "u1"; stripe_signature := Some "forged" |}
            (userProfiles alice_db)).1.1 = 400 /\
  status (stripeWebhook toy_constructEvent toy_update (Some "whsec")
            {| rawBody := "u1"; stripe_signature := Some "whsec" |}
            (userProfiles alice_db)).1.1 = 200 /\
  status (stripeWebhook toy_constructEvent toy_update (Some "whsec")
            {| rawBody := "u2"; stripe_signature := Some "whsec" |}
            (userProfiles alice_db)).1.1 = 500.
Proof.
  split; [|split].
  - refine (proj1 (proj1 (stripeWebhook_responses toy_constructEvent toy_update
       "whsec" {| rawBody := "u1"; stripe_signature := Some "forged" |}
       (userProfiles alice_db) _) _ eq_refl)). discriminate.
  - refine (proj1 (proj1 (proj2 (proj2 (proj2 (stripeWebhook_responses
       toy_constructEvent toy_update
       "whsec" {| rawBody := "u1"; stripe_signature := Some "whsec" |}
       (userProfiles alice_db) _)) _ "u1" eq_refl eq_refl eq_refl _)) _ eq_refl));
      discriminate.
  - refine (proj1 (proj2 (proj2 (proj2 (proj2 (stripeWebhook_responses
       toy_constructEvent toy_update
       "whsec" {| rawBody := "u2"; stripe_signature := Some "whsec" |}
       (userProfiles alice_db) _)) _ "u2" eq_refl eq_refl eq_refl _)) eq_refl));
      discriminate.
Defined.

(** * Further properties of the code *)

(** ** Listeners and notifications *)

Lemma notify_fold_exact (l : list nat) w :
  let w' := foldl (fun w' sid => handler_begin sid (currentUser w') w') w l in
  db w' = db w /\ currentUser w' = currentUser w /\
  listeners w' = listeners w /\ timers w' = timers w /\
  pending w' = pending w ++ notified_pending w l /\
  emitted w' = emitted w ++ notified_emitted w l /\
  calls w' = calls w ++ notified_calls w l.
Proof.
  unfold notified_pending, notified_emitted, notified_calls.
  revert w. induction l as [|sid l IH]; intros w; simpl.
  - destruct (currentUser w); by rewrite !app_nil_r.
  - destruct (IH (handler_begin sid (currentUser w) w))
      as (Hdb & Hcu & Hls & Htm & Hp & He & Hc).
    rewrite Hdb, Hcu, Hls, Htm, Hp, He, Hc.
    destruct (currentUser w) as [u|] eqn:Hu; simpl; rewrite ?Hu;
      by rewrite <- ?app_assoc.
Qed.

Lemma notifyListeners_exact w :
  let w' := notifyListeners w in
  db w' = db w /\ currentUser w' = currentUser w /\
  listeners w' = listeners w /\ timers w' = timers w /\
  pending w' = pending w ++ notified_pending w (listeners w) /\
  emitted w' = emitted w ++ notified_emitted w (listeners w) /\
  calls w' = calls w ++ notified_calls w (listeners w).
Proof. apply notify_fold_exact. Qed.





(** [logOut] always resolves; it clears the current user and hands "no
    session" to every registered subscriber, once each and in registration
    order, without store access and without suspending any handler. *)
Theorem logOut_notifies_all w :
  (logOut w).1 = inr () /\
  currentUser (logOut w).2 = None /\
  db (logOut w).2 = db w /\
  pending (logOut w).2 = pending w /\
  emitted (logOut w).2 = emitted w ++ ((fun sid => (sid, None)) <$> listeners w) /\
  calls (logOut w).2 = calls w ++ [AuthSignOut].
Proof.
  unfold logOut, signOut, bind, modify. cbn.
  set (w0 := set_currentUser None (log AuthSignOut w)).
  destruct (notifyListeners_exact w0) as (Hdb & Hcu & _ & _ & Hp & He & Hc).
  rewrite Hdb, Hcu, Hp, He, Hc.
  unfold notified_pending, notified_emitted, notified_calls. cbn.
  by rewrite !app_nil_r.
Qed.

(** After [unsubscribe], a notification reaches exactly the other
    subscribers, in their registration order, and never [sid]. *)
Theorem unsubscribe_stops_notifications w sid fu :
  let w' := step (Notify fu) (unsubscribe sid w) in
  let others := filter (fun l => l <> sid) (listeners w) in
  (sid ∉ others) /\
  listeners w' = others /\
  pending w' = pending w ++
    (match fu with
     | Some u => (fun s => (s, userProfiles (db w) !! uid u)) <$> others
     | None => []
     end) /\
  emitted w' = emitted w ++
    (match fu with
     | Some _ => []
     | None => (fun s => (s, None)) <$> others
     end).
Proof.
  intros w' others. split.
  { unfold others. rewrite list_elem_of_filter. tauto. }
  unfold w', step.
  set (w0 := set_currentUser fu (unsubscribe sid w)).
  destruct (notifyListeners_exact w0) as (_ & _ & Hls & _ & Hp & He & _).
  rewrite Hls, Hp, He. unfold notified_pending, notified_emitted. cbn.
  by destruct fu.
Qed.

(** [unsubscribe] cancels nothing that is already under way: a handler of
    [sid] suspended at its [await] still calls the callback when it
    continues, and the 100 ms timer armed at subscription still fires. *)
Theorem unsubscribe_does_not_cancel w sid :
  (forall k userDoc,
     pending w !! k = Some (sid, userDoc) ->
     emitted (step (Resume k) (unsubscribe sid w)) = emitted w ++ [(sid, userDoc)]) /\
  (forall k,
     timers w !! k = Some sid ->
     currentUser w = None ->
     emitted (step (Fire k) (unsubscribe sid w)) = emitted w ++ [(sid, None)]).
Proof.
  split.
  - intros k userDoc Hk. cbn. rewrite Hk. by destruct userDoc.
  - intros k Hk Hcu. cbn. rewrite Hk, Hcu. done.
Qed.

Lemma unsubscribe_does_not_cancel_witness :
  let w := step (Notify (Some alice)) (one_subscriber alice_db) in
  emitted (step (Resume 0) (unsubscribe 0 w)) = [(0%nat, Some (freeProfile alice))] /\
  emitted (step (Fire 0) (unsubscribe 0 (one_subscriber alice_db))) = [(0%nat, None)].
Proof.
  split.
  - exact (proj1 (unsubscribe_does_not_cancel
             (step (Notify (Some alice)) (one_subscriber alice_db)) 0)
             0%nat (Some (freeProfile alice)) eq_refl).
  - exact (proj2 (unsubscribe_does_not_cancel (one_subscriber alice_db) 0)
             0%nat eq_refl eq_refl).
Defined.

(** Subscribing registers the handler and arms one timer; when that timer
    fires (and the handler it starts has continued, if a user is signed
    in), the new subscriber has received exactly one event, the resolved
    value of the current user, and nothing else has changed. *)
Theorem subscribe_initial_event w sid :
  let w1 := onAuthStateChanged sid w in
  let w2 := run (Fire (length (timers w))
                 :: match currentUser w with
                    | Some _ => [Resume (length (pending w))]
                    | None => []
                    end) w1 in
  listeners w1 = listeners w ++ [sid] /\
  emitted w1 = emitted w /\
  emitted w2 = emitted w ++ [(sid, resolved (db w) (currentUser w))] /\
  timers w2 = timers w /\ pending w2 = pending w /\ db w2 = db w /\
  filter is_write (calls w2) = filter is_write (calls w).
Proof.
  intros w1 w2. split; [done|]. split; [done|].
  subst w2 w1. destruct w as [d cu ls ts pd em cs].
  unfold run, onAuthStateChanged, mock_onAuthStateChanged, set_timers,
    set_listeners. cbn [foldl step timers currentUser].
  rewrite list_lookup_middle by done.
  unfold set_timers.
  cbn [timers currentUser db pending emitted calls listeners].
  rewrite delete_middle, app_nil_r.
  destruct cu as [u|].
  - unfold handler_begin, set_pending, log.
    cbn [foldl step timers currentUser db pending emitted calls listeners].
    rewrite list_lookup_middle by done.
    unfold handler_resume, emit, set_pending.
    cbn [timers currentUser db pending emitted calls listeners].
    rewrite delete_middle, app_nil_r. unfold resolved.
    destruct (userProfiles d !! uid u);
      cbn [timers currentUser db pending emitted calls listeners];
      by rewrite filter_app, app_nil_r.
  - by cbn.
Qed.

Lemma step_from_store a w : from_store w -> from_store (step a w).
Proof.
  intros H sid data. destruct a as [fu|k|k]; cbn [step].
  - set (w0 := set_currentUser fu w).
    destruct (notifyListeners_exact w0) as (Hdb & _ & _ & _ & Hp & He & _).
    rewrite Hdb, Hp, He. unfold notified_pending, notified_emitted. cbn.
    rewrite !elem_of_app. intros [[Hin|Hin]|[Hin|Hin]].
    + apply (H sid), elem_of_app. by left.
    + destruct fu as [u|]; [|by apply elem_of_nil in Hin].
      apply list_elem_of_fmap in Hin as (s & [= _ Hd] & _). eauto.
    + apply (H sid), elem_of_app. by right.
    + destruct fu as [u|]; [by apply elem_of_nil in Hin|].
      by apply list_elem_of_fmap in Hin as (s & [= _ Hd] & _).
  - destruct (pending w !! k) as [[s userDoc]|] eqn:Hk; [|apply H].
    assert (Hsnap : forall d, userDoc = Some d ->
              exists id, userProfiles (db w) !! id = Some d).
    { intros d ->. apply (H s), elem_of_app. left.
      by eapply list_elem_of_lookup_2. }
    destruct userDoc as [d|]; cbn; rewrite !elem_of_app, list_elem_of_singleton;
      intros [Hin|[Hin|Hin]].
    + apply (H sid), elem_of_app. left. by eapply list_elem_of_delete_inv.
    + apply (H sid), elem_of_app. by right.
    + injection Hin as _ ->. by apply Hsnap.
    + apply (H sid), elem_of_app. left. by eapply list_elem_of_delete_inv.
    + apply (H sid), elem_of_app. by right.
    + discriminate Hin.
  - destruct (timers w !! k) as [s|] eqn:Hk; [|apply H].
    destruct (currentUser w) as [u|]; cbn;
      rewrite !elem_of_app, ?list_elem_of_singleton.
    + intros [[Hin|Hin]|Hin].
      * apply (H sid), elem_of_app. by left.
      * injection Hin as _ Hd. eauto.
      * apply (H sid), elem_of_app. by right.
    + intros [Hin|[Hin|Hin]].
      * apply (H sid), elem_of_app. by left.
      * apply (H sid), elem_of_app. by right.
      * discriminate Hin.
Qed.

Lemma run_from_store schedule w : from_store w -> from_store (run schedule w).
Proof.
  revert w. induction schedule as [|a s IH]; intros w H; [done|].
  cbn. apply IH. by apply step_from_store.
Qed.


Lemma logIn_split email password :
  logIn email password
  = (user <- signInWithEmailAndPassword email password ;; logIn_after_signIn user).
Proof. reflexivity. Qed.

Lemma signUp_split clk email password :
  signUp clk email password
  = (user <- createUserWithEmailAndPassword clk email password ;;
     signUp_after_create user).
Proof. reflexivity. Qed.

(** ** Accounts *)

Lemma existsb_profiles (p : Doc -> bool) (m : gmap string Doc) :
  existsb p (map_to_list m).*2 = true <-> exists id d, m !! id = Some d /\ p d = true.
Proof.
  rewrite existsb_exists. split.
  - intros (d & Hin & Hp). apply list_elem_of_In, list_elem_of_fmap in Hin
      as ([id d'] & -> & Hin). apply elem_of_map_to_list in Hin. eauto.
  - intros (id & d & Hm & Hp). exists d. split; [|done].
    apply list_elem_of_In, list_elem_of_fmap. exists (id, d).
    split; [done|]. by apply elem_of_map_to_list.
Qed.

Lemma email_free_existsb email w :
  email_free email w <->
  existsb (field_is "email" email) (map_to_list (userProfiles (db w))).*2 = false.
Proof.
  rewrite <- not_true_iff_false, existsb_profiles. unfold email_free. split.
  - intros H (id & d & Hm & Hp). apply field_is_true in Hp. by eapply H.
  - intros H id d Hm Hp. apply H. exists id, d. by rewrite field_is_true.
Qed.

Lemma find_jsmap_set (p : Account -> bool) k v m :
  p v = true ->
  (forall a, a ∈ m.*2 -> p a = false) ->
  find p (jsmap_set k v m).*2 = Some v.
Proof.
  intros Hv. induction m as [|[k' a] m IH]; intros Hm; simpl.
  - by rewrite Hv.
  - case_decide; simpl.
    + by rewrite Hv.
    + rewrite (Hm a) by (simpl; left). apply IH.
      intros a' Ha'. apply Hm. simpl. by right.
Qed.

Lemma jsmap_set_twice {V} k (v1 v2 : V) m :
  jsmap_set k v2 (jsmap_set k v1 m) = jsmap_set k v2 m.
Proof.
  induction m as [|[k' a] m IH]; simpl.
  - by rewrite decide_True.
  - case_decide; simpl.
    + by rewrite decide_True.
    + rewrite decide_False by done. by rewrite IH.
Qed.

Lemma signUp_eq clk email password w :
  signUp clk email password w
  = if existsb (field_is "email" email) (map_to_list (userProfiles (db w))).*2
    then (inl email_in_use, log (AuthCreateUser email password) w)
    else
      let me := {| uid := mock_uid clk; fu_email := email |} in
      (inr (freeProfile me),
       set_db (set_userProfiles <[mock_uid clk := freeProfile me]>)
         (log (ProfileSet (mock_uid clk) (freeProfile me))
            (created clk email password w))).
Proof.
  unfold signUp, bind. rewrite createUser_eq.
  by destruct (existsb _ _).
Qed.

Lemma created_users clk email password w :
  users (db (created clk email password w))
  = jsmap_set (mock_uid clk)
      {| acc_password := password; acc_email := email; acc_uid := mock_uid clk |}
      (users (db w)).
Proof.
  unfold created. by rewrite (proj1 (notifyListeners_reads_only _)).
Qed.

(** [logIn] with an unknown email, or with a password that is not the one
    of the first account carrying the email, rejects with
    [auth/wrong-password]; apart from the recorded call the world is
    untouched: no listener is notified, the current user, the store and the
    events stay as they were, and the form shows "Invalid email or
    password.". *)
Theorem logIn_wrong_credentials email password w :
  (forall user,
     find (fun u => bool_decide (acc_email u = email)) (users (db w)).*2 = Some user ->
     acc_password user <> password) ->
  logIn email password w = (inl wrong_password, log (AuthSignIn email password) w) /\
  errorMessage wrong_password = Some "Invalid email or password.".
Proof.
  intros H. split; [|reflexivity].
  unfold logIn, bind. rewrite signIn_eq.
  destruct (find _ _) as [user|]; [|done].
  by rewrite bool_decide_false by by apply H.
Qed.

Lemma logIn_wrong_credentials_witness :
  logIn "a@x.com" "guess" (one_subscriber alice_db)
  = (inl wrong_password, log (AuthSignIn "a@x.com" "guess") (one_subscriber alice_db)).
Proof.
  refine (proj1 (logIn_wrong_credentials "a@x.com" "guess"
                   (one_subscriber alice_db) _)).
  intros user [= <-]. discriminate.
Defined.

(** Sign-up followed by log-in with the same credentials: when the email
    is carried by no profile and no account, [signUp] resolves to the free
    profile and a later [logIn] resolves to that same profile, signs the
    new user in and writes nothing. *)
Theorem signUp_then_logIn clk email password w :
  email_free email w ->
  no_account email w ->
  let me := {| uid := mock_uid clk; fu_email := email |} in
  let w1 := (signUp clk email password w).2 in
  let w2 := (logIn email password w1).2 in
  (signUp clk email password w).1 = inr (freeProfile me) /\
  (logIn email password w1).1 = inr (freeProfile me) /\
  currentUser w2 = Some me /\
  db w2 = db w1 /\
  filter is_write (calls w2) = filter is_write (calls w1).
Proof.
  intros Hfree Hacc me w1 w2. subst w2 w1.
  apply email_free_existsb in Hfree.
  rewrite signUp_eq, Hfree. cbn [fst snd]. split; [done|].
  set (w1 := set_db _ _).
  assert (Hfind : find (fun u => bool_decide (acc_email u = email)) (users (db w1)).*2
                  = Some {| acc_password := password; acc_email := email;
                            acc_uid := mock_uid clk |}).
  { unfold w1. cbn [db set_db log users set_userProfiles].
    rewrite created_users. apply find_jsmap_set.
    - by rewrite bool_decide_true.
    - intros a Ha. apply bool_decide_false. by apply Hacc. }
  unfold logIn, bind.
  rewrite (signIn_ok email password w1 _ Hfind eq_refl).
  cbn [acc_uid acc_email]. fold me.
  set (w0 := set_currentUser (Some me) (log (AuthSignIn email password) w1)).
  destruct (notifyListeners_exact w0) as (Hdb & Hcu & _ & _ & _ & _ & Hc).
  destruct (notifyListeners_reads_only w0) as (_ & _ & Hwr).
  set (w2 := notifyListeners w0) in *. clearbody w2.
  unfold profile_get, bind, modify, gets, ret.
  cbn [fst snd db log]. rewrite Hdb.
  assert (userProfiles (db w0) !! uid me = Some (freeProfile me)) as ->.
  { unfold w0, w1. cbn. by rewrite lookup_insert_eq. }
  cbn. split; [done|]. rewrite Hcu, Hdb. split; [done|]. split; [done|].
  rewrite filter_app, Hwr. unfold w0. cbn.
  by rewrite filter_app, !app_nil_r.
Qed.

Lemma signUp_then_logIn_witness :
  (logIn "b@x.com" "hunter22"
     (signUp noon "b@x.com" "hunter22" (one_subscriber alice_db)).2).1
  = inr (freeProfile {| uid := mock_uid noon; fu_email := "b@x.com" |}).
Proof.
  refine (proj1 (proj2 (signUp_then_logIn noon "b@x.com" "hunter22"
                          (one_subscriber alice_db) _ _))).
  - apply email_free_existsb. reflexivity.
  - intros a Ha. apply list_elem_of_singleton in Ha. subst a. discriminate.
Defined.

(** Straight after a successful [signUp], a [signUp] with the same email
    is rejected. *)
Lemma signUp_twice_same_email clk email password w profile w1 clk' password' :
  signUp clk email password w = (inr profile, w1) ->
  signUp clk' email password' w1
  = (inl email_in_use, log (AuthCreateUser email password') w1).
Proof.
  rewrite signUp_eq. destruct (existsb _ _); [discriminate|].
  intros [= _ <-]. rewrite signUp_eq.
  set (w1 := set_db _ _).
  assert (existsb (field_is "email" email)
            (map_to_list (userProfiles (db w1))).*2 = true) as ->; [|done].
  apply existsb_profiles. eexists (mock_uid clk), _. split.
  - unfold w1. cbn. by rewrite lookup_insert_eq.
  - apply field_is_true. reflexivity.
Qed.

(** [signUp] rejects exactly when some stored profile carries the email at
    that moment, always with [auth/email-already-in-use] and changing
    nothing but the call record; so a [signUp] repeated straight after a
    successful one is rejected, whatever the password and the time.  The
    test reads the profiles as they are stored then, not the accounts. *)
Theorem signUp_email_in_use clk email password w :
  ((exists err, (signUp clk email password w).1 = inl err) <->
   (exists id d,
      userProfiles (db w) !! id = Some d /\ d !! "email" = Some (VStr email))) /\
  (forall err,
     (signUp clk email password w).1 = inl err ->
     err = email_in_use /\
     (signUp clk email password w).2 = log (AuthCreateUser email password) w) /\
  (forall profile w1 clk' password',
     signUp clk email password w = (inr profile, w1) ->
     signUp clk' email password' w1
     = (inl email_in_use, log (AuthCreateUser email password') w1)).
Proof.
  split; [|split].
  - rewrite signUp_eq.
    destruct (existsb _ _) eqn:Hex; cbn [fst].
    + split; [|by eauto]. intros _.
      apply existsb_profiles in Hex as (id & d & Hm & Hp).
      exists id, d. by rewrite <- field_is_true.
    + split; [by intros [err [=]]|].
      intros (id & d & Hm & Hp). exfalso.
      apply not_true_iff_false in Hex. apply Hex, existsb_profiles.
      exists id, d. by rewrite field_is_true.
  - intros err. rewrite signUp_eq.
    destruct (existsb _ _); cbn [fst snd]; [by intros [= <-] | discriminate].
  - intros profile w1 clk' password'.
    apply signUp_twice_same_email.
Qed.

Lemma signUp_email_in_use_witness :
  (signUp noon "a@x.com" "other-pass"
     (signUp noon "a@x.com" "secret1" (boot empty_db)).2).1
    = inl email_in_use /\
  (signUp noon "a@x.com" "other-pass" (boot alice_db)).2
    = log (AuthCreateUser "a@x.com" "other-pass") (boot alice_db).
Proof.
  split.
  - exact (f_equal fst (proj2 (proj2 (signUp_email_in_use noon "a@x.com" "secret1"
             (boot empty_db))) _ _ noon "other-pass" eq_refl)).
  - exact (proj2 (proj1 (proj2 (signUp_email_in_use noon "a@x.com" "other-pass"
             (boot alice_db))) email_in_use eq_refl)).
Defined.

(** The uid is the clock reading: two accounts created at the same
    millisecond get the same uid, and accounts created at different
    readings get different ones. *)
Theorem mock_uid_inj c1 c2 : mock_uid c1 = mock_uid c2 <-> now c1 = now c2.
Proof.
  unfold mock_uid. split; [|by intros ->].
  intros H. apply (inj pretty). by apply (inj (String.append "mock-uid-")).
Qed.

(** Two sign-ups with different free emails at the same clock reading both
    succeed, and the second replaces the first: the profile store and the
    account list end up as if only the second sign-up had happened. *)
Theorem signUp_same_instant c1 c2 e1 p1 e2 p2 w :
  now c1 = now c2 ->
  e1 <> e2 ->
  email_free e1 w ->
  email_free e2 w ->
  let w1 := (signUp c1 e1 p1 w).2 in
  let w2 := (signUp c2 e2 p2 w1).2 in
  let second := {| uid := mock_uid c2; fu_email := e2 |} in
  (signUp c1 e1 p1 w).1 = inr (freeProfile {| uid := mock_uid c1; fu_email := e1 |}) /\
  (signUp c2 e2 p2 w1).1 = inr (freeProfile second) /\
  userProfiles (db w2) = <[mock_uid c2 := freeProfile second]> (userProfiles (db w)) /\
  users (db w2)
  = jsmap_set (mock_uid c2)
      {| acc_password := p2; acc_email := e2; acc_uid := mock_uid c2 |}
      (users (db w)).
Proof.
  intros Hnow Hne H1 H2 w1 w2 second. subst w2 w1.
  assert (Huid : mock_uid c1 = mock_uid c2) by (unfold mock_uid; by rewrite Hnow).
  apply email_free_existsb in H1.
  rewrite (signUp_eq c1), H1. cbn [fst snd]. split; [done|].
  set (w1 := set_db _ _).
  assert (Hp1 : userProfiles (db w1)
                = <[mock_uid c2 := freeProfile {| uid := mock_uid c1; fu_email := e1 |}]>
                    (userProfiles (db w))).
  { unfold w1. cbn. rewrite created_db, Huid. by rewrite insert_insert_eq. }
  assert (Hu1 : users (db w1)
                = jsmap_set (mock_uid c2)
                    {| acc_password := p1; acc_email := e1; acc_uid := mock_uid c1 |}
                    (users (db w))).
  { unfold w1. cbn. by rewrite created_users, Huid. }
  assert (Hfree : email_free e2 w1).
  { intros id d. rewrite Hp1, lookup_insert. case_decide.
    - intros [= <-]. change (Some (VStr e1) <> Some (VStr e2)). congruence.
    - apply H2. }
  apply email_free_existsb in Hfree.
  rewrite (signUp_eq c2), Hfree. cbn [fst snd]. split; [done|].
  cbn [db set_db log userProfiles users set_userProfiles].
  rewrite created_db, created_users, Hp1, Hu1.
  by rewrite !insert_insert_eq, jsmap_set_twice.
Qed.

Lemma signUp_same_instant_witness :
  userProfiles (db (signUp noon "b@x.com" "pw2222"
                      (signUp noon "a@x.com" "secret1" (boot empty_db)).2).2)
  = {[ mock_uid noon := freeProfile {| uid := mock_uid noon; fu_email := "b@x.com" |} ]}.
Proof.
  refine (proj1 (proj2 (proj2 (signUp_same_instant noon noon "a@x.com" "secret1"
            "b@x.com" "pw2222" (boot empty_db) eq_refl _ _ _)))).
  - discriminate.
  - intros id d H. discriminate H.
  - intros id d H. discriminate H.
Defined.

(** ** What the subscriber sees around sign-up and log-in *)

Lemma filter_auth_notified w l : filter is_auth_call (notified_calls w l) = [].
Proof.
  unfold notified_calls. destruct (currentUser w) as [u|]; [|done].
  by induction l.
Qed.

(** With one subscriber and a free email.  Account creation stores the
    profile with [trialEndDate] and notifies the session handler, whose
    continuation is queued before [signUp]'s own.  When it runs, the
    subscriber is handed that profile, which is what the store holds at
    that moment; the rest of [signUp] then replaces the stored profile by
    the free one and calls no callback.  From then on the profile the
    subscriber was given and the stored one differ. *)
Theorem signUp_session_event clk email password w sid :
  listeners w = [sid] ->
  email_free email w ->
  let me := {| uid := mock_uid clk; fu_email := email |} in
  let w1 := (createUserWithEmailAndPassword clk email password w).2 in
  let w2 := run [Resume (length (pending w))] w1 in
  let w3 := (signUp_after_create (Some me) w2).2 in
  (createUserWithEmailAndPassword clk email password w).1 = inr (Some me) /\
  emitted w1 = emitted w /\
  emitted w2 = emitted w ++ [(sid, Some (trialProfile clk email))] /\
  userProfiles (db w2) !! mock_uid clk = Some (trialProfile clk email) /\
  (signUp_after_create (Some me) w2).1 = inr (freeProfile me) /\
  emitted w3 = emitted w2 /\
  userProfiles (db w3) !! mock_uid clk = Some (freeProfile me) /\
  db w3 = db (signUp clk email password w).2 /\
  trialProfile clk email <> freeProfile me.
Proof.
  intros Hl Hfree me w1 w2 w3. subst w3 w2 w1.
  apply email_free_existsb in Hfree.
  rewrite signUp_eq, createUser_eq, Hfree. cbn [fst snd].
  split; [done|]. unfold created.
  set (w0 := set_db _ (set_db _ (set_currentUser _ _))).
  destruct (notifyListeners_exact w0) as (Hdb & _ & _ & _ & Hp & He & _).
  unfold notified_pending, notified_emitted in Hp, He.
  change (currentUser w0) with (Some me) in Hp, He.
  change (listeners w0) with (listeners w) in Hp. rewrite Hl in Hp.
  change (pending w0) with (pending w) in Hp.
  change (emitted w0) with (emitted w) in He.
  cbn [fmap list_fmap] in Hp. rewrite app_nil_r in He.
  assert (Hsnap : userProfiles (db w0) !! uid me = Some (trialProfile clk email)).
  { unfold w0. cbn. by rewrite lookup_insert_eq. }
  rewrite Hsnap in Hp.
  set (wn := notifyListeners w0) in *.
  assert (Hrun : run [Resume (length (pending w))] wn
                 = emit sid (Some (trialProfile clk email))
                     (set_pending (delete (length (pending w))) wn)).
  { unfold run. cbn [foldl step]. by rewrite Hp, list_lookup_middle. }
  rewrite Hrun. clearbody wn.
  unfold signUp_after_create, profile_set, bind, modify, ret. cbn.
  rewrite He, Hdb, lookup_insert_eq.
  split; [done|]. split; [done|]. split; [exact Hsnap|].
  split; [done|]. split; [done|]. split; [done|]. split; [done|].
  intros Heq. assert (H : trialProfile clk email !! "trialEndDate"
                          = freeProfile me !! "trialEndDate") by by rewrite Heq.
  discriminate H.
Qed.

Lemma signUp_session_event_witness :
  emitted (run [Resume 0]
             (createUserWithEmailAndPassword noon "b@x.com" "hunter22"
                (one_subscriber alice_db)).2)
  = [(0%nat, Some (trialProfile noon "b@x.com"))].
Proof.
  refine (proj1 (proj2 (proj2 (signUp_session_event noon "b@x.com" "hunter22"
                                 (one_subscriber alice_db) 0 eq_refl _)))).
  apply email_free_existsb. reflexivity.
Defined.

(** With one subscriber, a successful [logIn] resolves to the stored
    profile, or to the free profile it creates when none is stored; the
    subscriber receives what the store held when the provider notified it,
    so in the second case it is told "no session" although the profile
    exists once [logIn] has settled. *)
Theorem logIn_session_event email password w sid user :
  listeners w = [sid] ->
  find (fun a => bool_decide (acc_email a = email)) (users (db w)).*2 = Some user ->
  acc_password user = password ->
  let u := {| uid := acc_uid user; fu_email := acc_email user |} in
  let before := userProfiles (db w) !! uid u in
  let w1 := (logIn email password w).2 in
  let w2 := run [Resume (length (pending w))] w1 in
  (logIn email password w).1 = inr (default (freeProfile u) before) /\
  userProfiles (db w1) !! uid u = Some (default (freeProfile u) before) /\
  emitted w1 = emitted w /\
  emitted w2 = emitted w ++ [(sid, before)].
Proof.
  intros Hl Hfind Hpw u before w1 w2. subst w2 w1.
  unfold logIn, bind. rewrite (signIn_ok email password w user Hfind Hpw).
  fold u.
  set (w0 := set_currentUser (Some u) (log (AuthSignIn email password) w)).
  destruct (notifyListeners_exact w0) as (Hdb & _ & _ & _ & Hp & He & _).
  unfold notified_pending, notified_emitted in Hp, He.
  assert (currentUser w0 = Some u) as Hcu by done. rewrite Hcu in Hp, He.
  assert (listeners w0 = [sid]) as Hls by done. rewrite Hls in Hp.
  cbn [fmap list_fmap] in Hp. rewrite app_nil_r in He.
  change (userProfiles (db w0) !! uid u) with before in Hp.
  change (pending w0) with (pending w) in Hp.
  change (emitted w0) with (emitted w) in He.
  change (db w0) with (db w) in Hdb.
  set (wn := notifyListeners w0) in *. clearbody wn.
  unfold profile_get, profile_set, bind, modify, gets, ret, run.
  cbn [fst snd db log]. rewrite Hdb. subst before.
  change (acc_uid user) with (uid u).
  destruct (userProfiles (db w) !! uid u) as [data|] eqn:Hb;
    cbn [fst snd default foldl step pending set_db log].
  - rewrite Hp, list_lookup_middle by done. cbn. rewrite Hdb.
    repeat split; [done|by rewrite He..].
  - rewrite Hp, list_lookup_middle by done. cbn. rewrite lookup_insert_eq.
    repeat split; by rewrite He.
Qed.

Lemma logIn_session_event_witness :
  (logIn "a@x.com" "secret1" (one_subscriber orphan_db)).1
    = inr (freeProfile alice) /\
  emitted (run [Resume 0] (logIn "a@x.com" "secret1" (one_subscriber orphan_db)).2)
    = [(0%nat, None)].
Proof.
  destruct (logIn_session_event "a@x.com" "secret1" (one_subscriber orphan_db)
              0 alice_account eq_refl eq_refl eq_refl) as (H1 & _ & _ & H4).
  split; [exact H1 | exact H4].
Defined.

(** ** The form's provider call *)

Lemma notifyListeners_auth_calls w :
  filter is_auth_call (calls (notifyListeners w)) = filter is_auth_call (calls w).
Proof.
  destruct (notifyListeners_exact w) as (_ & _ & _ & _ & _ & _ & ->).
  by rewrite filter_app, filter_auth_notified, app_nil_r.
Qed.

Lemma logIn_auth_calls email password w :
  filter is_auth_call (calls (logIn email password w).2)
  = filter is_auth_call (calls w) ++ [AuthSignIn email password].
Proof.
  unfold logIn, bind. rewrite signIn_eq.
  destruct (find _ _) as [user|]; [|by cbn; rewrite filter_app].
  case_bool_decide; [|by cbn; rewrite filter_app].
  cbv zeta.
  set (wn := notifyListeners (set_currentUser _ _)).
  assert (Hn : filter is_auth_call (calls wn)
               = filter is_auth_call (calls w) ++ [AuthSignIn email password]).
  { unfold wn. rewrite notifyListeners_auth_calls. cbn. by rewrite filter_app. }
  clearbody wn. unfold profile_get, profile_set, bind, modify, gets, ret. cbn.
  destruct (userProfiles (db wn) !! acc_uid user); cbn;
    rewrite ?filter_app, Hn; cbn; by rewrite ?app_nil_r.
Qed.

Lemma signUp_auth_calls clk email password w :
  filter is_auth_call (calls (signUp clk email password w).2)
  = filter is_auth_call (calls w) ++ [AuthCreateUser email password].
Proof.
  rewrite signUp_eq. destruct (existsb _ _); cbn; [by rewrite filter_app|].
  rewrite filter_app. unfold created. rewrite notifyListeners_auth_calls. cbn.
  by rewrite filter_app, app_nil_r.
Qed.

(** A submission with both fields filled makes exactly one provider call,
    the sign-in in login mode and the account creation in signup mode,
    whether it succeeds or not; afterwards the loading flag is off and the
    mode, email and password are what they were, and on success the error
    is cleared. *)
Theorem handleSubmit_one_provider_call clk f w :
  email f <> "" -> password f <> "" ->
  let r := handleSubmit clk f w in
  filter is_auth_call (calls r.2)
  = filter is_auth_call (calls w) ++
      [match mode f with
       | login => AuthSignIn (email f) (password f)
       | signup => AuthCreateUser (email f) (password f)
       end] /\
  mode r.1 = mode f /\ email r.1 = email f /\ password r.1 = password f /\
  isLoading r.1 = false /\
  (forall profile w', submitCall clk f w = (inr profile, w') -> error r.1 = None).
Proof.
  intros He Hp r. subst r. unfold handleSubmit.
  assert (str_falsy (email f) || str_falsy (password f) = false) as ->.
  { apply orb_false_iff.
    split; apply not_true_is_false; by rewrite str_falsy_true. }
  assert (Hc : filter is_auth_call (calls (submitCall clk f w).2)
               = filter is_auth_call (calls w) ++
                   [match mode f with
                    | login => AuthSignIn (email f) (password f)
                    | signup => AuthCreateUser (email f) (password f)
                    end]).
  { unfold submitCall. destruct (mode f).
    - apply logIn_auth_calls.
    - apply signUp_auth_calls. }
  destruct (submitCall clk f w) as [[err|profile] w1]; cbn in *.
  - repeat split; [done|]. intros ? ? [=].
  - by repeat split.
Qed.

Lemma handleSubmit_one_provider_call_witness :
  filter is_auth_call (calls (handleSubmit noon
    {| mode := signup; email := "b@x.com"; password := "hunter22";
       isLoading := false; error := None |} (one_subscriber alice_db)).2)
  = [AuthCreateUser "b@x.com" "hunter22"].
Proof.
  refine (proj1 (handleSubmit_one_provider_call noon
    {| mode := signup; email := "b@x.com"; password := "hunter22";
       isLoading := false; error := None |} (one_subscriber alice_db) _ _));
    discriminate.
Defined.

(** ** The stores *)

(** Round trip on the profile store: after [set(data)] under an id, [get]
    on that id finds exactly [data], [get] on any other id finds what it
    found before, and accounts and dreams are untouched. *)
Theorem profile_set_get id data other w :
  let w1 := (profile_set id data w).2 in
  (profile_get id w1).1 = inr (Some data) /\
  (other <> id -> (profile_get other w1).1 = (profile_get other w).1) /\
  users (db w1) = users (db w) /\
  dreams (db w1) = dreams (db w).
Proof.
  unfold profile_set, profile_get, bind, modify, gets. cbn.
  split; [by rewrite lookup_insert_eq|].
  split; [|done]. intros Hne. by rewrite lookup_insert_ne.
Qed.

Lemma profile_set_get_witness :
  (profile_get "u1" (profile_set "u2" (freeProfile alice) (boot alice_db)).2).1
  = (profile_get "u1" (boot alice_db)).1.
Proof.
  refine (proj1 (proj2 (profile_set_get "u2" (freeProfile alice) "u1"
                          (boot alice_db))) _).
  discriminate.
Defined.

Section DreamOrderProps.
Variable getTime : option Value -> option Z.

Lemma sort_insert_perm d l : sort_insert getTime d l ≡ₚ d :: l.
Proof.
  induction l as [|x l IH]; simpl; [done|].
  destruct (sort_compare getTime d x <=? 0); [done|].
  by rewrite IH, Permutation_swap.
Qed.

Lemma sort_desc_perm l : sort_desc getTime l ≡ₚ l.
Proof.
  induction l as [|d l IH]; simpl; [done|].
  by rewrite sort_insert_perm, IH.
Qed.

Lemma sort_compare_dated d x td tx :
  getTime (d !! "timestamp") = Some td ->
  getTime (x !! "timestamp") = Some tx ->
  sort_compare getTime d x = tx - td.
Proof. intros Hd Hx. unfold sort_compare, by_timestamp_desc. by rewrite Hx, Hd. Qed.

Lemma sort_insert_sorted d l :
  dated getTime d ->
  Forall (dated getTime) l ->
  StronglySorted (newer_first getTime) l ->
  StronglySorted (newer_first getTime) (sort_insert getTime d l).
Proof.
  intros [td Hd] Hdated Hsorted.
  induction Hsorted as [|x l Hs IH Hx]; simpl.
  - repeat constructor.
  - apply Forall_cons in Hdated as [[tx Htx] Hdated].
    rewrite (sort_compare_dated d x td tx Hd Htx).
    destruct (Z.leb_spec (tx - td) 0) as [H|H].
    + constructor; [by constructor|]. constructor.
      * exists td, tx. by repeat split; [..|lia].
      * eapply Forall_impl; [exact Hx|].
        intros y (tx' & ty & Htx' & Hty & Hle).
        exists td, ty. repeat split; [done..|].
        assert (tx' = tx) by congruence. lia.
    + constructor; [by apply IH|].
      rewrite sort_insert_perm. constructor; [|exact Hx].
      exists tx, td. by repeat split; [..|lia].
Qed.

Lemma sort_desc_sorted l :
  Forall (dated getTime) l ->
  StronglySorted (newer_first getTime) (sort_desc getTime l).
Proof.
  induction l as [|d l IH]; intros Hdated; simpl; [constructor|].
  apply Forall_cons in Hdated as [Hd Hl].
  apply sort_insert_sorted; [done| |by apply IH].
  by rewrite sort_desc_perm.
Qed.

(** [getDreamsForUser] always resolves, leaves the store as it is, and
    returns the user's stored dreams rearranged: the same dreams with the
    same multiplicities, the empty list for a user with no entry; and when
    every stored dream carries a timestamp that [Date] can read, newest
    first: every dream's time is at least those of the dreams after it. *)
Theorem getDreamsForUser_newest_first userId w :
  exists listed,
    getDreamsForUser getTime userId w = (inr listed, log (DreamsGet userId) w) /\
    listed ≡ₚ default [] (dreams (db w) !! userId) /\
    (dreams (db w) !! userId = None -> listed = []) /\
    (Forall (dated getTime) (default [] (dreams (db w) !! userId)) ->
     StronglySorted (newer_first getTime) listed).
Proof.
  exists (sort_desc getTime (default [] (dreams (db w) !! userId))).
  split; [reflexivity|]. split; [apply sort_desc_perm|].
  split; [by intros ->|]. apply sort_desc_sorted.
Qed.

Lemma sort_desc_keeps_sorted l :
  StronglySorted (newer_first getTime) l -> sort_desc getTime l = l.
Proof.
  induction 1 as [|d l Hl IH Hd]; [done|].
  simpl. rewrite IH. destruct Hd as [|x l' (td & tx & Htd & Htx & Hle) _]; [done|].
  simpl. rewrite (sort_compare_dated d x td tx Htd Htx).
  by destruct (Z.leb_spec (tx - td) 0); [|lia].
Qed.

Lemma sort_desc_keeps_undated l :
  Forall (fun d => getTime (d !! "timestamp") = None) l -> sort_desc getTime l = l.
Proof.
  induction 1 as [|d l Hd Hl IH]; [done|].
  simpl. rewrite IH. destruct l as [|x l']; [done|].
  simpl. unfold sort_compare, by_timestamp_desc. rewrite Hd.
  by destruct (getTime (x !! "timestamp")).
Qed.

(** A stored list of dated dreams that is already newest first is returned
    exactly as stored, so dreams with equal timestamps keep their stored
    order; and so is a list none of whose timestamps [Date] can read, for
    which every comparison is NaN. *)
Theorem getDreamsForUser_keeps_sorted userId w stored :
  dreams (db w) !! userId = Some stored ->
  StronglySorted (newer_first getTime) stored \/
  Forall (fun d => getTime (d !! "timestamp") = None) stored ->
  (getDreamsForUser getTime userId w).1 = inr stored.
Proof.
  intros Hs Hsorted.
  unfold getDreamsForUser, dreams_orderBy_get, bind, modify, gets. cbn.
  rewrite Hs. cbn. f_equal.
  destruct Hsorted; [by apply sort_desc_keeps_sorted | by apply sort_desc_keeps_undated].
Qed.
End DreamOrderProps.

(** A dream without timestamp makes every comparison with it NaN, read as
    "equal": it and its neighbours stay where they are stored. *)
Example sort_desc_with_undated :
  sort_desc num_time [stamped "a" 10; undated_dream; stamped "b" 30]
  = [stamped "a" 10; undated_dream; stamped "b" 30].
Proof. reflexivity. Qed.

(** Splits the sortedness of a literal list into its comparisons. *)
Ltac sorted_literal :=
  lazymatch goal with
  | |- StronglySorted _ [] => apply SSorted_nil
  | |- StronglySorted _ (_ :: _) => apply SSorted_cons; sorted_literal
  | |- Forall _ [] => apply Forall_nil_2
  | |- Forall _ (_ :: _) => apply Forall_cons_2; sorted_literal
  | |- _ => idtac
  end.

Lemma getDreamsForUser_keeps_sorted_witness :
  (getDreamsForUser num_time "u1" (boot tied_db)).1
  = inr [stamped "b" 30; stamped "a" 10; stamped "c" 10].
Proof.
  apply (getDreamsForUser_keeps_sorted num_time "u1" (boot tied_db)
           [stamped "b" 30; stamped "a" 10; stamped "c" 10] eq_refl).
  left. sorted_literal;
    (eexists _, _; split; [reflexivity|]; split; [reflexivity|];
     vm_compute; intros H; discriminate H).
Defined.

Lemma getDreamsForUser_newest_first_witness :
  exists listed,
    (getDreamsForUser num_time "u1" (boot tied_db)).1 = inr listed /\
    StronglySorted (newer_first num_time) listed.
Proof.
  destruct (getDreamsForUser_newest_first num_time "u1" (boot tied_db))
    as (listed & Hget & _ & _ & Hsorted).
  exists listed. split; [by rewrite Hget|]. apply Hsorted.
  change (Forall (dated num_time)
            [stamped "b" 30; stamped "a" 10; stamped "c" 10]).
  sorted_literal; unfold dated, is_Some; eexists; reflexivity.
Defined.

Lemma findIndex_None_inv {A} (p : A -> bool) l x :
  findIndex p l = None -> x ∈ l -> p x = false.
Proof.
  induction l as [|a l IH]; intros Hf Hx; [by apply elem_of_nil in Hx|].
  simpl in Hf. destruct (p a) eqn:Ha; [done|].
  destruct (findIndex p l); [done|].
  apply elem_of_cons in Hx as [-> | Hx]; [done | by apply IH].
Qed.

Lemma dream_set_db id subDocId data w :
  dream_set id subDocId data w
  = (inr (),
     set_db (fun d =>
       let userDreams := default [] (dreams d !! id) in
       match findIndex (field_is "id" subDocId) userDreams with
       | Some existingIndex =>
           set_dreams <[id := <[existingIndex := data]> userDreams]> d
       | None => set_dreams <[id := userDreams ++ [data]]> d
       end) (log (DreamSet id subDocId data) w)).
Proof. reflexivity. Qed.

(** [saveDreamForUser] is an upsert keyed by the dream's id: it always
    resolves; a stored dream with that id (the first one) is replaced in
    place, otherwise the dream is appended; either way the dream is then
    stored, and [getDreamsForUser] lists it among as many dreams as are
    stored. *)
Theorem saveDreamForUser_upsert getTime userId dream id w :
  dream !! "id" = Some (VStr id) ->
  let before := default [] (dreams (db w) !! userId) in
  let w1 := (saveDreamForUser userId dream w).2 in
  let after := default [] (dreams (db w1) !! userId) in
  (saveDreamForUser userId dream w).1 = inr () /\
  after = match findIndex (field_is "id" id) before with
          | Some i => <[i := dream]> before
          | None => before ++ [dream]
          end /\
  dream ∈ after /\
  exists listed,
    (getDreamsForUser getTime userId w1).1 = inr listed /\
    dream ∈ listed /\ length listed = length after.
Proof.
  intros Hid before w1 after.
  assert (Hdoc : doc_id dream = id) by (unfold doc_id; by rewrite Hid).
  assert (Hafter : after = match findIndex (field_is "id" id) before with
                           | Some i => <[i := dream]> before
                           | None => before ++ [dream]
                           end).
  { subst after w1. unfold saveDreamForUser. rewrite dream_set_db, Hdoc.
    cbn [snd db set_db log]. fold before.
    destruct (findIndex _ before); cbn; by rewrite lookup_insert_eq. }
  assert (Hin : dream ∈ after).
  { rewrite Hafter. destruct (findIndex _ before) as [i|] eqn:Hi.
    - apply findIndex_Some in Hi as (x & Hx & _).
      apply list_elem_of_lookup. exists i.
      apply list_lookup_insert_eq. by eapply lookup_lt_Some.
    - apply elem_of_app. right. by apply list_elem_of_singleton. }
  split; [done|]. split; [exact Hafter|]. split; [exact Hin|].
  exists (sort_desc getTime after). split; [reflexivity|]. split.
  - by rewrite sort_desc_perm.
  - by rewrite sort_desc_perm.
Qed.

Lemma saveDreamForUser_upsert_witness :
  default [] (dreams (db (saveDreamForUser "u1" (stamped "a" 99) (boot tied_db)).2)
                !! "u1")
  = [stamped "b" 30; stamped "a" 99; stamped "c" 10].
Proof.
  exact (proj1 (proj2 (saveDreamForUser_upsert num_time "u1" (stamped "a" 99) "a"
                         (boot tied_db) eq_refl))).
Defined.

(** Saving the same dream a second time changes nothing in the store. *)
Theorem saveDreamForUser_idempotent userId dream id w :
  dream !! "id" = Some (VStr id) ->
  let w1 := (saveDreamForUser userId dream w).2 in
  db (saveDreamForUser userId dream w1).2 = db w1.
Proof.
  intros Hid w1.
  assert (Hdoc : doc_id dream = id) by (unfold doc_id; by rewrite Hid).
  unfold saveDreamForUser. rewrite dream_set_db, Hdoc. cbn [snd db set_db log].
  set (l1 := default [] (dreams (db w1) !! userId)).
  assert (Hstored : dreams (db w1) !! userId = Some l1 /\
                    exists i, findIndex (field_is "id" id) l1 = Some i /\
                              l1 !! i = Some dream).
  { subst l1 w1. unfold saveDreamForUser. rewrite dream_set_db, Hdoc.
    cbn [snd db set_db log].
    set (l := default [] (dreams (db w) !! userId)).
    destruct (findIndex (field_is "id" id) l) as [i|] eqn:Hi; cbn;
      rewrite lookup_insert_eq; cbn; (split; [done|]).
    - exists i. apply findIndex_Some in Hi as (x & Hx & Hpx & Hmin).
      assert (Hlt : (i < length l)%nat) by by eapply lookup_lt_Some.
      split; [|by apply list_lookup_insert_eq].
      apply findIndex_Some. exists dream.
      split; [by apply list_lookup_insert_eq|].
      split; [by apply field_is_true|].
      intros j y Hj. rewrite list_lookup_insert_ne by lia. by apply Hmin.
    - exists (length l).
      split; [|by rewrite list_lookup_middle].
      apply findIndex_Some. exists dream.
      split; [by rewrite list_lookup_middle|].
      split; [by apply field_is_true|].
      intros j y Hj. rewrite lookup_app_l by done. intros Hy.
      eapply findIndex_None_inv; [exact Hi|]. by eapply list_elem_of_lookup_2. }
  destruct Hstored as (Hl1 & i & Hfi & Hi).
  rewrite Hfi. destruct (db w1) as [us ps ds]. cbn in *.
  unfold set_dreams. cbn. f_equal.
  rewrite list_insert_id by done. by apply insert_id.
Qed.

Lemma saveDreamForUser_idempotent_witness :
  db (saveDreamForUser "u1" (stamped "a" 99)
        (saveDreamForUser "u1" (stamped "a" 99) (boot tied_db)).2).2
  = db (saveDreamForUser "u1" (stamped "a" 99) (boot tied_db)).2.
Proof.
  exact (saveDreamForUser_idempotent "u1" (stamped "a" 99) "a" (boot tied_db) eq_refl).
Defined.

Lemma dream_update_db id subDocId data w :
  dream_update id subDocId data w
  = (inr (),
     set_db (fun d =>
       let userDreams := default [] (dreams d !! id) in
       match findIndex (field_is "id" subDocId) userDreams with
       | Some dreamIndex =>
           match userDreams !! dreamIndex with
           | Some old =>
               set_dreams <[id := <[dreamIndex := data ∪ old]> userDreams]> d
           | None => d
           end
       | None => d
       end) (log (DreamUpdate id subDocId data) w)).
Proof. reflexivity. Qed.

(** Writes to one user's dreams stay with that user: [saveDreamForUser]
    and [addChatMessageToDream] leave every other user's dreams, all
    profiles and all accounts as they were. *)
Theorem dream_writes_isolated userId other dream dreamId chatHistory w :
  other <> userId ->
  let w1 := (saveDreamForUser userId dream w).2 in
  let w2 := (addChatMessageToDream userId dreamId chatHistory w).2 in
  dreams (db w1) !! other = dreams (db w) !! other /\
  userProfiles (db w1) = userProfiles (db w) /\
  users (db w1) = users (db w) /\
  dreams (db w2) !! other = dreams (db w) !! other /\
  userProfiles (db w2) = userProfiles (db w) /\
  users (db w2) = users (db w).
Proof.
  intros Hne w1 w2. subst w1 w2.
  unfold saveDreamForUser, addChatMessageToDream.
  rewrite dream_set_db, dream_update_db. cbn [snd db set_db log].
  destruct (findIndex _ _) as [i|]; cbn;
    (split; [by rewrite lookup_insert_ne|]); (split; [done|]); (split; [done|]);
    destruct (findIndex _ _) as [j|]; try done;
    destruct (_ !! j); try done; cbn; by rewrite lookup_insert_ne.
Qed.

Lemma dream_writes_isolated_witness :
  dreams (db (saveDreamForUser "u2" (stamped "z" 1) (boot tied_db)).2) !! "u1"
  = dreams tied_db !! "u1".
Proof.
  refine (proj1 (dream_writes_isolated "u2" "u1" (stamped "z" 1) "z" (VList [])
                   (boot tied_db) _)).
  discriminate.
Defined.

(** [addChatMessageToDream] touches nothing but [chatHistory]: the user's
    list keeps its length and order, and every other field of every dream,
    id and timestamp included, reads as before. *)
Theorem addChatMessageToDream_other_fields userId dreamId chatHistory field w :
  field <> "chatHistory" ->
  let before := default [] (dreams (db w) !! userId) in
  let after :=
    default [] (dreams (db (addChatMessageToDream userId dreamId chatHistory w).2)
                  !! userId) in
  length after = length before /\
  (fun d : Doc => d !! field) <$> after = (fun d : Doc => d !! field) <$> before.
Proof.
  intros Hf before after. subst after.
  unfold addChatMessageToDream. rewrite dream_update_db. cbn [snd db set_db log].
  fold before.
  destruct (findIndex _ before) as [i|]; [|done].
  destruct (before !! i) as [old|] eqn:Hi; [|done].
  cbn. rewrite lookup_insert_eq. cbn. split; [by rewrite length_insert|].
  rewrite list_fmap_insert. apply list_insert_id.
  rewrite list_lookup_fmap, Hi. cbn. f_equal.
  rewrite lookup_union_r; [done|]. by rewrite lookup_singleton_ne.
Qed.

Lemma addChatMessageToDream_other_fields_witness :
  (fun d : Doc => d !! "timestamp") <$>
    default [] (dreams (db (addChatMessageToDream "u1" "a" (VList ["hi"])
                              (boot tied_db)).2) !! "u1")
  = [Some (VNum 30); Some (VNum 10); Some (VNum 10)].
Proof.
  refine (proj2 (addChatMessageToDream_other_fields "u1" "a" (VList ["hi"])
                   "timestamp" (boot tied_db) _)).
  discriminate.
Defined.

(** ** The cloud functions *)

Lemma stripeWebhook_unconfigured_witness :
  stripeWebhook toy_constructEvent toy_update (Some "")
    {| rawBody := "u1"; stripe_signature := Some "" |} (userProfiles alice_db)
  = ({| status := 400; body := Text "Webhook secret is not configured." |},
     userProfiles alice_db, []).
Proof.
  exact (stripeWebhook_unconfigured toy_constructEvent toy_update (Some "")
           {| rawBody := "u1"; stripe_signature := Some "" |}
           (userProfiles alice_db) eq_refl).
Defined.

Section WebhookSafety.
Context {Firestore : Type}.
Variable constructEvent : string -> option string -> string -> string + StripeEvent.
Variable doc_update : string -> Doc -> Firestore -> option Firestore.

(** Whatever the request, the webhook answers 200, 400 or 500; it issues at
    most one update, and only [plan := "pro"] on a non-empty uid; the
    database is changed only together with a 200 answer and only through
    that update; and 500 is answered only after an update was tried. *)
Theorem stripeWebhook_safety secret req fs :
  let out := stripeWebhook constructEvent doc_update secret req fs in
  (status out.1.1 = 200 \/ status out.1.1 = 400 \/ status out.1.1 = 500) /\
  (out.2 = [] \/
   exists firebaseUID,
     firebaseUID <> "" /\ out.2 = [(firebaseUID, {[ "plan" := VStr "pro" ]})]) /\
  (status out.1.1 <> 200 -> out.1.2 = fs) /\
  (out.1.2 = fs \/
   exists firebaseUID,
     doc_update firebaseUID {[ "plan" := VStr "pro" ]} fs = Some out.1.2) /\
  (status out.1.1 = 500 -> out.2 <> []).
Proof.
  unfold stripeWebhook.
  destruct secret as [endpointSecret|]; [|cbn; by auto 10].
  destruct (str_falsy endpointSecret); [cbn; by auto 10|].
  destruct (constructEvent _ _ _) as [msg|event]; [cbn; by auto 10|].
  case_bool_decide; [|cbn; by auto 10].
  destruct (client_reference_id event) as [firebaseUID|]; [|cbn; by auto 10].
  cbn. destruct (str_falsy firebaseUID) eqn:Hf; [cbn; by auto 10|].
  assert (firebaseUID <> "").
  { intros ->. discriminate Hf. }
  destruct (doc_update firebaseUID _ fs) as [fs'|] eqn:Hu; cbn.
  - split; [by auto|]. split; [right; by eexists|]. split; [done|].
    split; [right; by eexists | done].
  - split; [by auto|]. split; [right; by eexists|]. by auto.
Qed.
End WebhookSafety.

Lemma stripeWebhook_safety_witness :
  (stripeWebhook toy_constructEvent toy_update (Some "whsec")
     {| rawBody := "u2"; stripe_signature := Some "whsec" |}
     (userProfiles alice_db)).2 <> [].
Proof.
  exact (proj2 (proj2 (proj2 (proj2 (stripeWebhook_safety toy_constructEvent
           toy_update (Some "whsec")
           {| rawBody := "u2"; stripe_signature := Some "whsec" |}
           (userProfiles alice_db))))) eq_refl).
Defined.

Lemma stripeWebhook_other_event_witness :
  stripeWebhook
    (fun _ _ _ => inr {| ev_type := "invoice.paid"; client_reference_id := None |})
    toy_update (Some "whsec")
    {| rawBody := "u1"; stripe_signature := Some "whsec" |} (userProfiles alice_db)
  = ({| status := 200; body := Json_received |}, userProfiles alice_db, []).
Proof.
  refine (stripeWebhook_other_event
    (fun _ _ _ => inr {| ev_type := "invoice.paid"; client_reference_id := None |})
    toy_update "whsec" {| rawBody := "u1"; stripe_signature := Some "whsec" |}
    (userProfiles alice_db) _ _ eq_refl _); discriminate.
Defined.

Section CheckoutProps.
Context {Firestore : Type}.
Variable doc_get : string -> Firestore -> option (option Doc).
Variable doc_update : string -> Doc -> Firestore -> option Firestore.
Variable customers_create : option Value -> string -> option string.
Variable sessions_create : SessionParams -> option string.

Lemma checkout_session_calls price_id trial_price_id uid origin userData cid :
  Forall (call_for uid)
    (checkout_session sessions_create price_id trial_price_id uid origin
       userData cid).2.
Proof.
  unfold checkout_session.
  destruct (checkoutPriceId _ _ _) as [e|priceId]; [by constructor|].
  destruct (sessions_create _); by repeat constructor.
Qed.

(** The checkout function stays with its caller: without authentication it
    throws [unauthenticated] and calls nothing; otherwise every call it
    makes concerns the caller's uid (the profile read and update, the
    customer's metadata, the session's [client_reference_id]), the only
    write it can make is the one [stripeCustomerId] update, and the
    database it leaves is the one it found or the result of that update. *)
Theorem checkout_stays_with_caller price_id trial_price_id auth origin fs :
  let out := createStripeCheckoutSession doc_get doc_update customers_create
               sessions_create price_id trial_price_id auth origin fs in
  match auth with
  | None => out = (Https unauthenticated, fs, [])
  | Some uid =>
      Forall (call_for uid) out.2 /\
      (out.1.2 = fs \/
       exists cid,
         doc_update uid {[ "stripeCustomerId" := VStr cid ]} fs = Some out.1.2)
  end.
Proof.
  unfold createStripeCheckoutSession. destruct auth as [uid|]; [|done].
  destruct (doc_get uid fs) as [[userData|]|];
    [|split; [by repeat constructor | by left]..].
  assert (Hstep2 :
    let r := find_or_create_customer doc_update customers_create uid userData fs in
    Forall (call_for uid) r.2 /\
    match r.1 with
    | Some (_, fs') =>
        fs' = fs \/
        exists cid,
          doc_update uid {[ "stripeCustomerId" := VStr cid ]} fs = Some fs'
    | None => True
    end).
  { unfold find_or_create_customer.
    assert (Hcreate :
      let r := match customers_create (userData !! "email") uid with
               | None => (None, [CustomersCreate (userData !! "email") uid])
               | Some id =>
                   match doc_update uid {[ "stripeCustomerId" := VStr id ]} fs with
                   | None =>
                       (None, [CustomersCreate (userData !! "email") uid;
                               UserDocUpdate uid {[ "stripeCustomerId" := VStr id ]}])
                   | Some fs' =>
                       (Some (VStr id, fs'),
                        [CustomersCreate (userData !! "email") uid;
                         UserDocUpdate uid {[ "stripeCustomerId" := VStr id ]}])
                   end
               end in
      Forall (call_for uid) r.2 /\
      match r.1 with
      | Some (_, fs') =>
          fs' = fs \/
          exists cid,
            doc_update uid {[ "stripeCustomerId" := VStr cid ]} fs = Some fs'
      | None => True
      end).
    { destruct (customers_create _ _) as [id|]; [|by repeat constructor].
      destruct (doc_update uid _ fs) as [fs'|] eqn:Hu; cbn.
      - split; [|right; by eexists].
        repeat constructor; cbn; eauto.
      - split; [|done]. repeat constructor; cbn; eauto. }
    destruct (userData !! "stripeCustomerId") as [existing|]; [|exact Hcreate].
    destruct (truthy (Some existing)); [|exact Hcreate].
    split; [constructor | by left]. }
  destruct (find_or_create_customer _ _ _ _ _) as [[[cid fs']|] cs];
    cbn in Hstep2; destruct Hstep2 as [Hcs Hfs].
  - pose proof (checkout_session_calls price_id trial_price_id uid origin
                  userData cid) as Hsess.
    destruct (checkout_session _ _ _ _ _ _ _) as [r cs']. cbn in *.
    split; [|exact Hfs].
    constructor; [done|]. by apply Forall_app.
  - split; [|by left]. by constructor.
Qed.
Lemma checkoutPriceId_internal userData price_id trial_price_id e :
  checkoutPriceId userData price_id trial_price_id = inl e ->
  e = internal /\ (opt_falsy price_id = true \/ opt_falsy trial_price_id = true).
Proof.
  unfold checkoutPriceId, opt_falsy.
  destruct price_id as [r|], trial_price_id as [t|];
    try (intros [= <-]; by auto).
  destruct (str_falsy r), (str_falsy t); cbn; try discriminate;
    intros [= <-]; by auto.
Qed.

(** The three thrown errors tell their cause: [unauthenticated] exactly
    when the caller is not authenticated, [not-found] exactly when the
    caller's profile document does not exist, and [internal] only when one
    of the two price ids is not configured. *)
Theorem checkout_error_taxonomy price_id trial_price_id auth origin fs :
  let out := createStripeCheckoutSession doc_get doc_update customers_create
               sessions_create price_id trial_price_id auth origin fs in
  (out.1.1 = Https unauthenticated <-> auth = None) /\
  (out.1.1 = Https not_found <->
     exists uid, auth = Some uid /\ doc_get uid fs = Some None) /\
  (out.1.1 = Https internal ->
     opt_falsy price_id = true \/ opt_falsy trial_price_id = true).
Proof.
  unfold createStripeCheckoutSession. destruct auth as [uid|]; cbn.
  2:{ split; [done|]. split; [|done]. split; [done | by intros (? & ? & _)]. }
  assert (Hsess : forall userData cid e,
    (checkout_session sessions_create price_id trial_price_id uid origin
       userData cid).1 = Https e ->
    e = internal /\ (opt_falsy price_id = true \/ opt_falsy trial_price_id = true)).
  { intros userData cid e. unfold checkout_session.
    destruct (checkoutPriceId _ _ _) as [e'|priceId] eqn:Hp.
    - cbn. intros [= <-]. by eapply checkoutPriceId_internal.
    - by destruct (sessions_create _). }
  destruct (doc_get uid fs) as [[userData|]|] eqn:Hget; cbn.
  - destruct (find_or_create_customer _ _ _ _ _) as [[[cid fs']|] cs]; cbn.
    + pose proof (Hsess userData cid) as H.
      destruct (checkout_session _ _ _ _ _ _ _) as [r cs']. cbn in *.
      split; [split; [|done]|].
      { intros ->. by destruct (H unauthenticated eq_refl). }
      split; [split|].
      * intros ->. by destruct (H not_found eq_refl).
      * intros (? & [= <-] & ?). congruence.
      * intros ->. by destruct (H internal eq_refl).
    + split; [done|]. split; [|done].
      split; [done|]. intros (? & [= <-] & ?). congruence.
  - split; [done|]. split; [|done]. split; [by eauto | done].
  - split; [done|]. split; [|done].
    split; [done|]. intros (? & [= <-] & ?). congruence.
Qed.

(** A caller whose profile already carries a customer id goes straight to
    the session: with both price ids configured the function makes the
    profile read and one session creation, for that customer and the
    caller's uid, at the trial price unless the profile has a
    [trialEndDate]; it creates no customer and writes nothing. *)
Theorem checkout_existing_customer regular trial uid origin fs userData cid :
  regular <> "" -> trial <> "" ->
  doc_get uid fs = Some (Some userData) ->
  userData !! "stripeCustomerId" = Some cid ->
  truthy (Some cid) = true ->
  let params :=
    {| sp_customer := cid;
       sp_price := if hasUsedTrial userData then regular else trial;
       sp_client_reference_id := uid;
       sp_success_url :=
         default "undefined" origin +:+ "?session_id={CHECKOUT_SESSION_ID}";
       sp_cancel_url := origin |} in
  createStripeCheckoutSession doc_get doc_update customers_create sessions_create
    (Some regular) (Some trial) (Some uid) origin fs
  = (match sessions_create params with
     | Some id => SessionId id
     | None => Uncaught
     end, fs, [UserDocGet uid; SessionsCreate params]).
Proof.
  intros Hr Ht Hget Hcid Htruthy params.
  unfold createStripeCheckoutSession, find_or_create_customer.
  rewrite Hget, Hcid, Htruthy. unfold checkout_session, checkoutPriceId.
  assert (str_falsy regular = false) as ->.
  { apply not_true_is_false. by rewrite str_falsy_true. }
  assert (str_falsy trial = false) as ->.
  { apply not_true_is_false. by rewrite str_falsy_true. }
  cbn [orb]. fold params. by destruct (sessions_create params).
Qed.

(** The customer is made before the configuration is looked at: for a
    profile without customer id, with a missing price id the call ends in
    [internal], yet the customer has been created and its id written to the
    profile. *)
Theorem checkout_customer_before_price_check
    price_id trial_price_id uid origin fs userData cid fs' :
  doc_get uid fs = Some (Some userData) ->
  truthy (userData !! "stripeCustomerId") = false ->
  customers_create (userData !! "email") uid = Some cid ->
  doc_update uid {[ "stripeCustomerId" := VStr cid ]} fs = Some fs' ->
  opt_falsy price_id = true \/ opt_falsy trial_price_id = true ->
  createStripeCheckoutSession doc_get doc_update customers_create sessions_create
    price_id trial_price_id (Some uid) origin fs
  = (Https internal, fs',
     [UserDocGet uid; CustomersCreate (userData !! "email") uid;
      UserDocUpdate uid {[ "stripeCustomerId" := VStr cid ]}]).
Proof.
  intros Hget Hfalsy Hcreate Hupdate Hprice.
  unfold createStripeCheckoutSession, find_or_create_customer.
  rewrite Hget, Hcreate, Hupdate.
  assert (checkoutPriceId userData price_id trial_price_id = inl internal) as Hp.
  { unfold checkoutPriceId, opt_falsy in *.
    destruct price_id as [r|], trial_price_id as [t|]; try done.
    destruct Hprice as [-> | ->]; [done|]. by rewrite orb_true_r. }
  destruct (userData !! "stripeCustomerId") as [existing|];
    rewrite ?Hfalsy; unfold checkout_session; by rewrite Hp.
Qed.
End CheckoutProps.

Lemma checkout_existing_customer_witness :
  createStripeCheckoutSession toy_get toy_update toy_customers_create
    toy_sessions_create (Some "price_regular") (Some "price_trial") (Some "u1")
    (Some "https://app")
    {[ "u1" := <["stripeCustomerId" := VStr "cus_9"]> (freeProfile alice) ]}
  = (SessionId "cs_price_trial",
     {[ "u1" := <["stripeCustomerId" := VStr "cus_9"]> (freeProfile alice) ]},
     [UserDocGet "u1";
      SessionsCreate
        {| sp_customer := VStr "cus_9"; sp_price := "price_trial";
           sp_client_reference_id := "u1";
           sp_success_url := "https://app?session_id={CHECKOUT_SESSION_ID}";
           sp_cancel_url := Some "https://app" |}]).
Proof.
  refine (checkout_existing_customer toy_get toy_update toy_customers_create
    toy_sessions_create "price_regular" "price_trial" "u1" (Some "https://app")
    {[ "u1" := <["stripeCustomerId" := VStr "cus_9"]> (freeProfile alice) ]}
    (<["stripeCustomerId" := VStr "cus_9"]> (freeProfile alice)) (VStr "cus_9")
    _ _ eq_refl eq_refl eq_refl); discriminate.
Defined.

Lemma checkout_customer_before_price_check_witness :
  createStripeCheckoutSession toy_get toy_update toy_customers_create
    toy_sessions_create (Some "price_regular") None (Some "u1")
    (Some "https://app") (userProfiles alice_db)
  = (Https internal,
     {[ "u1" := {[ "stripeCustomerId" := VStr "cus_u1" ]} ∪ freeProfile alice ]},
     [UserDocGet "u1"; CustomersCreate (Some (VStr "a@x.com")) "u1";
      UserDocUpdate "u1" {[ "stripeCustomerId" := VStr "cus_u1" ]}]).
Proof.
  refine (checkout_customer_before_price_check toy_get toy_update
    toy_customers_create toy_sessions_create (Some "price_regular") None "u1"
    (Some "https://app") (userProfiles alice_db) (freeProfile alice) "cus_u1"
    _ eq_refl eq_refl eq_refl eq_refl _).
  right. reflexivity.
Defined.

(** Which price a profile is offered: the profile [signUp] stores has no
    [trialEndDate] and gets the trial price; the profile account creation
    itself stores carries the date and gets the regular price. *)
Theorem checkout_price_by_profile regular trial u clk email :
  regular <> "" -> trial <> "" ->
  checkoutPriceId (freeProfile u) (Some regular) (Some trial) = inr trial /\
  (in30days clk <> "" ->
   checkoutPriceId (trialProfile clk email) (Some regular) (Some trial)
   = inr regular).
Proof.
  intros Hr Ht. unfold checkoutPriceId.
  assert (str_falsy regular = false) as ->.
  { apply not_true_is_false. by rewrite str_falsy_true. }
  assert (str_falsy trial = false) as ->.
  { apply not_true_is_false. by rewrite str_falsy_true. }
  split; [reflexivity|]. intros Hiso. cbn [orb].
  assert (hasUsedTrial (trialProfile clk email) = true) as ->; [|done].
  change (negb (str_falsy (in30days clk)) = true).
  apply negb_true_iff, not_true_is_false. by rewrite str_falsy_true.
Qed.

Lemma checkout_price_by_profile_witness :
  checkoutPriceId (freeProfile alice) (Some "price_regular") (Some "price_trial")
    = inr "price_trial" /\
  checkoutPriceId (trialProfile noon "a@x.com") (Some "price_regular")
    (Some "price_trial") = inr "price_regular".
Proof.
  destruct (checkout_price_by_profile "price_regular" "price_trial" alice noon
              "a@x.com") as [H1 H2]; [discriminate..|].
  split; [exact H1 | apply H2; discriminate].
Defined.

(** ** The store behind the session events *)




